(** * Analytics queries of the Rage dashboard (src/queries/analytics.js)

    A shallow embedding of the aggregation functions of [analytics.js] and
    the properties the specification states about them.

    Conventions of the embedding.
    - A Supabase read answers with a pair [{ data, error }]; it is the record
      [response].  The data store itself is a collaborator: it is any function
      from the read request (table, filters, ordering) to a response.
    - [throw] and [return] of an async function are the two constructors of
      [result].
    - Numeric columns are integers ([Z]); ratios are exact rationals ([Q]).
      The rounding of IEEE doubles is not part of the model.
    - A date or timestamp column is the instant dayjs parses it to, in
      milliseconds since the epoch, in a zone without offset ([Z]); SQL NULL
      is [None].
    - Text ids and names are byte strings. *)

From Stdlib Require Import ZArith QArith Qround Qabs Lia String Ascii List.
From Stdlib Require Import DecimalString DecimalN DecimalFacts Permutation.
From Stdlib Require OrderedTypeEx.
From stdpp Require Import base gmap strings list fin_maps sorting.

Local Open Scope string_scope.
Local Open Scope list_scope.
Local Open Scope Z_scope.

(** ** JavaScript values and helpers *)

Module Js.

(** What an async function does at the end: [Throw e] or [Return v]. *)
Inductive result (A : Type) : Type :=
| Throw (e : string)
| Return (v : A).
Arguments Throw {A} e.
Arguments Return {A} v.

(** The answer [{ data, error }] of one read. *)
Record response (A : Type) := Response {
  data : option (list A);
  error : option string
}.
Arguments Response {A} data error.
Arguments data {A} r.
Arguments error {A} r.

Definition ok {A} (rows : list A) : response A := Response (Some rows) None.
Definition failed {A} (msg : string) : response A := Response None (Some msg).

(** [data?.forEach], [data?.map(...)] and the like see no rows when [data]
    is null. *)
Definition rows {A} (r : response A) : list A :=
  match data r with Some l => l | None => [] end.

(** [x || d] on a nullable number: null, undefined and 0 are falsy. *)
Definition num_or (x : option Z) (d : Z) : Z :=
  match x with
  | Some v => if v =? 0 then d else v
  | None => d
  end.

(** [x || d] on a nullable string: null, undefined and the empty string are
    falsy. *)
Definition str_or (x : option string) (d : string) : string :=
  match x with
  | Some EmptyString => d
  | Some s => s
  | None => d
  end.

(** [s.trim()] is truthy when some character of [s] is not white space. *)
Definition is_space (c : ascii) : bool :=
  let n := nat_of_ascii c in
  ((9 <=? n)%nat && (n <=? 13)%nat) || (n =? 32)%nat.

Fixpoint has_nonspace (s : string) : bool :=
  match s with
  | EmptyString => false
  | String c s' => negb (is_space c) || has_nonspace s'
  end.

(** [s.substring(0, n)] *)
Definition substring0 (n : nat) (s : string) : string := String.substring 0 n s.

(** [Array.prototype.slice(start, end)] with integer arguments: a negative
    index counts from the end. *)
Definition slice_index (len i : Z) : Z :=
  if i <? 0 then Z.max (len + i) 0 else Z.min i len.

Definition slice {A} (l : list A) (start stop : Z) : list A :=
  let len := Z.of_nat (length l) in
  let k := slice_index len start in
  let final := slice_index len stop in
  take (Z.to_nat (final - k)) (drop (Z.to_nat k) l).

(** [Array.prototype.sort(cmp)]: a stable sort; [cmp a b <= 0] keeps [a]
    before [b]. *)
Fixpoint insert_sorted {A} (cmp : A -> A -> Z) (x : A) (l : list A) : list A :=
  match l with
  | [] => [x]
  | y :: l' => if cmp x y <=? 0 then x :: l else y :: insert_sorted cmp x l'
  end.

Definition sort {A} (cmp : A -> A -> Z) (l : list A) : list A :=
  foldr (insert_sorted cmp) [] l.

(** A loop body that may throw: [forEach] stops at the first throw. *)
Fixpoint forEach {A S} (step : S -> A -> result S) (l : list A) (s : S) : result S :=
  match l with
  | [] => Return s
  | x :: l' =>
      match step s x with
      | Throw e => Throw e
      | Return s' => forEach step l' s'
      end
  end.

(** [Math.round]: the nearest integer, a tie going up. *)
Definition Math_round (x : Q) : Z := Qfloor (x + (1 # 2)).

(** [Math.ceil] *)
Definition Math_ceil (x : Q) : Z := Qceiling x.

(** Decimal digits of a natural number. *)
Definition digits (n : Z) : string := NilZero.string_of_uint (N.to_uint (Z.to_N n)).

(** [x.toFixed(1)], for [|x|] below 1e21: [n] is the integer with [n / 10]
    nearest to [|x|], the larger one on a tie; a negative [x] gets a minus
    sign. *)
Definition toFixed1 (x : Q) : string :=
  let n := Qfloor (Qabs x * 10 + (1 # 2)) in
  let body := digits (n / 10) +:+ "." +:+ digits (n mod 10) in
  if Qlt_le_dec x 0 then "-" +:+ body else body.

(** A field that holds a number on one path and a string on the other. *)
Inductive num_or_str : Type :=
| Num (n : Z)
| Str (s : string).

End Js.

Export Js.


(** ** Dictionaries: a plain object or a [Map] used as one

    The entries are kept in creation order.  Assigning to an existing key
    keeps its place.  Objects used as dictionaries are taken without their
    inherited properties. *)

Module Dict.
Abbreviation t K V := (list (K * V)) (only parsing).

Section Keyed.
Context {K : Type} `{EqDecision K} {V : Type}.

Fixpoint get (o : t K V) (k : K) : option V :=
  match o with
  | [] => None
  | (k', v) :: o' => if decide (k = k') then Some v else get o' k
  end.

Fixpoint set (o : t K V) (k : K) (v : V) : t K V :=
  match o with
  | [] => [(k, v)]
  | (k', v') :: o' =>
      if decide (k = k') then (k, v) :: o' else (k', v') :: set o' k v
  end.

Definition has (o : t K V) (k : K) : bool :=
  match get o k with Some _ => true | None => false end.

(** [Map.prototype.forEach] and [Map.prototype.values]: creation order. *)
Definition map_values (o : t K V) : list V := map snd o.
End Keyed.

(** A property name is an array index when it is the canonical decimal
    form of an integer below 2^32 - 1. *)
Definition array_index (k : string) : option Z :=
  match NilZero.uint_of_string k with
  | Some u =>
      let n := Z.of_N (N.of_uint u) in
      if bool_decide (digits n = k) && (n <? 4294967295) then Some n else None
  | None => None
  end.

Definition is_index {V} (kv : string * V) : bool :=
  match array_index (fst kv) with Some _ => true | None => false end.

Definition index_of {V} (kv : string * V) : Z :=
  match array_index (fst kv) with Some n => n | None => 0 end.

(** [Object.entries]: the array indices in ascending order, then the other
    names in creation order. *)
Definition entries {V} (o : t string V) : list (string * V) :=
  sort (fun a b => index_of a - index_of b) (filter (fun kv => is_index kv = true) o)
    ++ filter (fun kv => is_index kv <> true) o.

(** [Object.values] *)
Definition values {V} (o : t string V) : list V := map snd (entries o).
End Dict.

(** [new Set(array)]: the distinct elements in order of first appearance. *)
Module JsSet.
Definition add (s : list string) (x : string) : list string :=
  if bool_decide (x ∈ s) then s else s ++ [x].
Definition of_list (l : list string) : list string := foldl add [] l.
Definition has (s : list string) (x : string) : bool := bool_decide (x ∈ s).
Definition size (s : list string) : Z := Z.of_nat (length s).
End JsSet.

(** ** dayjs on instants

    An instant is a number of milliseconds since 1970-01-01T00:00 in a zone
    without offset, so a day has 86400000 ms. *)

Module Dayjs.
Definition ms_per_day : Z := 86400000.

(** [t.subtract(n, 'day')] *)
Definition subtract_days (t n : Z) : Z := t - n * ms_per_day.

(** [a.isAfter(b)] and [a.isBefore(b)] *)
Definition isAfter (a b : Z) : bool := b <? a.
Definition isBefore (a b : Z) : bool := a <? b.

(** [a.diff(b, 'day')]: whole days, truncated towards zero. *)
Definition diff_days (a b : Z) : Z := Z.quot (a - b) ms_per_day.

Definition day_number (t : Z) : Z := t / ms_per_day.

(** [t.day()]: 0 is Sunday; 1970-01-01 was a Thursday. *)
Definition day (t : Z) : Z := (day_number t + 4) mod 7.

(** The civil date of a day number (proleptic Gregorian calendar):
    [(year, month, date)] with month from 1. *)
Definition month_part (doe : Z) : Z * Z * Z :=
  let yoe := (doe - doe / 1460 + doe / 36524 - doe / 146096) / 365 in
  let doy := doe - (365 * yoe + yoe / 4 - yoe / 100) in
  let mp := (5 * doy + 2) / 153 in
  (yoe, mp, doy - (153 * mp + 2) / 5 + 1).

Definition civil (t : Z) : Z * Z * Z :=
  let z := day_number t + 719468 in
  let era := z / 146097 in
  let '(yoe, mp, d) := month_part (z mod 146097) in
  let m := if mp <? 10 then mp + 3 else mp - 9 in
  let y := yoe + era * 400 in
  (if m <=? 2 then y + 1 else y, m, d).

(** [t.year()] and [t.month()] (January is 0). *)
Definition year (t : Z) : Z := fst (fst (civil t)).
Definition month (t : Z) : Z := snd (fst (civil t)) - 1.

Definition pad (width : nat) (s : string) : string :=
  string_of_list_ascii (repeat "0"%char (width - String.length s)) +:+ s.

(** A number in a template string. *)
Definition num_string (n : Z) : string :=
  if n <? 0 then "-" +:+ digits (- n) else digits n.

(** [t.format('YYYY-MM-DD')] *)
Definition format_date (t : Z) : string :=
  let '(y, m, d) := civil t in
  pad 4 (num_string y) +:+ "-" +:+ pad 2 (digits m) +:+ "-" +:+ pad 2 (digits d).
End Dayjs.

(** ** Rows of the data store *)

Module Profile.
Record t := mk {
  id : string;
  full_name : option string;
  phone : option string
}.
End Profile.

Module Booking.
(** [session_time] and [created_at] are not nullable. *)
Record t := mk {
  user_id : string;
  session_date : option Z;
  session_time : string;
  status : string;
  total_attendees : option Z;
  coach_name : option string;
  created_at : Z
}.
End Booking.

Module CreditBatch.
Record t := mk {
  id : Z;
  user_id : string;
  package_id : Z;
  credits_total : option Z;
  credits_remaining : Z;
  created_at : Z
}.
End CreditBatch.

Module Package.
Record t := mk {
  id : Z;
  title : option string;
  price : option Z;
  classes_count : option Z
}.
End Package.

Module Session.
Record t := mk {
  day_name : string;
  class_name : option string;
  class_subtitle : option string;
  max_spots : option Z
}.
End Session.

(** ** The data store

    A read names its table, its filters and its ordering; the projection
    ([select]) is left out because rows are typed records.  The store may
    answer any request with rows or with an error. *)

Inductive store_filter : Type :=
| f_eq (column value : string)
| f_in (column : string) (values : list string)
| f_gte (column value : string)
| f_lte (column value : string)
| f_gt (column : string) (value : Z).

Record request := Request {
  filters : list store_filter;
  order : option (string * bool)   (* column, ascending *)
}.

Record DataStore := {
  from_profiles : response Profile.t;
  from_bookings : request -> response Booking.t;
  from_credit_batches : request -> response CreditBatch.t;
  from_packages : response Package.t;
  from_sessions : response Session.t
}.

(** ** ProfileDirectory: the module-level cache *)

(** The state of the module: [profilesCache] (null at start) and, to count
    requests, the tables read so far by [loadProfiles]. *)
Record World := {
  profilesCache : option (gmap string Profile.t);
  reads : list string
}.

Definition initial_world : World := {| profilesCache := None; reads := [] |}.

(** [new Map(data.map(p => [p.id, p]))]: a later row replaces an earlier one
    with the same id. *)
Definition profile_map (l : list Profile.t) : gmap string Profile.t :=
  foldl (fun m p => <[Profile.id p := p]> m) ∅ l.

Definition loadProfiles (st : DataStore) (w : World) : gmap string Profile.t * World :=
  match profilesCache w with
  | Some cache => (cache, w)
  | None =>
      let r := from_profiles st in
      let seen := reads w ++ ["profiles"] in
      match error r with
      | Some _ => (∅, {| profilesCache := Some ∅; reads := seen |})
      | None =>
          match data r with
          | None | Some [] => (∅, {| profilesCache := Some ∅; reads := seen |})
          | Some l =>
              (profile_map l, {| profilesCache := Some (profile_map l); reads := seen |})
          end
      end
  end.

Definition getProfile (w : World) (userId : string) : option Profile.t :=
  match profilesCache w with
  | None => None
  | Some cache => cache !! userId
  end.

Definition formatUserName (userId : string) (profile : option Profile.t) : string :=
  match profile with
  | Some {| Profile.full_name := Some name |} =>
      if has_nonspace name then name else "Usuario " +:+ substring0 8 userId
  | _ => "Usuario " +:+ substring0 8 userId
  end.

Definition formatPhone (profile : option Profile.t) : string :=
  match profile with
  | Some {| Profile.phone := Some ph |} =>
      if has_nonspace ph then ph else "Sin teléfono"
  | _ => "Sin teléfono"
  end.

(** ** 1. Dormant clients *)

Module Dormant.
Record activity := { date : Z; type : string }.

Record client := {
  user_id : string;
  last_activity : Z;
  last_activity_type : string;
  days_inactive : Z;
  full_name : string;
  phone : string
}.

Record report := {
  total : Z;
  cutoff_days : Z;
  clients : list client
}.

Record pagination := {
  page : Z;
  pageSize : Z;
  totalPages : option Z;   (* None: Infinity or NaN, when pageSize is 0 *)
  totalItems : Z
}.

Record paginated := {
  result : report;          (* [...result], with [clients] replaced *)
  page_clients : list client;
  pages : pagination
}.
End Dormant.

Definition bookings_request_dormant : request :=
  {| filters := [f_eq "status" "active"]; order := Some ("session_date", false) |}.

Definition batches_request_dormant : request :=
  {| filters := []; order := Some ("created_at", false) |}.

Definition booking_activity (acc : Dict.t string Dormant.activity) (b : Booking.t)
  : Dict.t string Dormant.activity :=
  let bookingDate :=
    match Booking.session_date b with Some d => d | None => Booking.created_at b end in
  match Dict.get acc (Booking.user_id b) with
  | Some current =>
      if Dayjs.isAfter bookingDate (Dormant.date current)
      then Dict.set acc (Booking.user_id b) {| Dormant.date := bookingDate; Dormant.type := "booking" |}
      else acc
  | None =>
      Dict.set acc (Booking.user_id b) {| Dormant.date := bookingDate; Dormant.type := "booking" |}
  end.

Definition purchase_activity (acc : Dict.t string Dormant.activity) (c : CreditBatch.t)
  : Dict.t string Dormant.activity :=
  match Dict.get acc (CreditBatch.user_id c) with
  | Some current =>
      if Dayjs.isAfter (CreditBatch.created_at c) (Dormant.date current)
      then Dict.set acc (CreditBatch.user_id c)
             {| Dormant.date := CreditBatch.created_at c; Dormant.type := "purchase" |}
      else acc
  | None =>
      Dict.set acc (CreditBatch.user_id c)
        {| Dormant.date := CreditBatch.created_at c; Dormant.type := "purchase" |}
  end.

(** The merged last activity of every user seen in either source. *)
Definition userActivity (bookings : list Booking.t) (creditBatches : list CreditBatch.t)
  : Dict.t string Dormant.activity :=
  foldl purchase_activity (foldl booking_activity [] bookings) creditBatches.

Definition dormant_entry (w : World) (now : Z) (ua : string * Dormant.activity) : Dormant.client :=
  let profile := getProfile w (fst ua) in
  {| Dormant.user_id := fst ua;
     Dormant.last_activity := Dormant.date (snd ua);
     Dormant.last_activity_type := Dormant.type (snd ua);
     Dormant.days_inactive := Dayjs.diff_days now (Dormant.date (snd ua));
     Dormant.full_name := formatUserName (fst ua) profile;
     Dormant.phone := formatPhone profile |}.

Definition getDormantClients (st : DataStore) (w : World) (now : Z) (daysInactive : Z)
  : result Dormant.report :=
  let bookings := from_bookings st bookings_request_dormant in
  match error bookings with
  | Some bookingsError => Throw bookingsError
  | None =>
      let creditBatches := from_credit_batches st batches_request_dormant in
      match error creditBatches with
      | Some batchesError => Throw batchesError
      | None =>
          let activity := userActivity (rows bookings) (rows creditBatches) in
          let cutoffDate := Dayjs.subtract_days now daysInactive in
          let dormantUserIds :=
            filter (fun ua => Dayjs.isBefore (Dormant.date (snd ua)) cutoffDate = true) activity in
          let dormantClients :=
            sort (fun a b => Dormant.days_inactive b - Dormant.days_inactive a)
                 (map (dormant_entry w now) dormantUserIds) in
          Return {| Dormant.total := Z.of_nat (length dormantClients);
                    Dormant.cutoff_days := daysInactive;
                    Dormant.clients := dormantClients |}
      end
  end.

Definition getDormantClientsPaginated (st : DataStore) (w : World) (now : Z)
    (daysInactive page pageSize : Z) : result Dormant.paginated :=
  match getDormantClients st w now daysInactive with
  | Throw e => Throw e
  | Return result =>
      let startIndex := (page - 1) * pageSize in
      let endIndex := startIndex + pageSize in
      Return {| Dormant.result := result;
                Dormant.page_clients := slice (Dormant.clients result) startIndex endIndex;
                Dormant.pages :=
                  {| Dormant.page := page;
                     Dormant.pageSize := pageSize;
                     Dormant.totalPages :=
                       if pageSize =? 0 then None
                       else Some (Math_ceil (inject_Z (Dormant.total result) / inject_Z pageSize));
                     Dormant.totalItems := Dormant.total result |} |}
  end.

(** ** 2. Package sales by month and by package type *)

Module Bucket.
Record t := mk { month : string; count : Z; revenue : Z; credits : Z }.
End Bucket.

Module RangeBucket.
Record t := mk { month : string; year : Z; count : Z; revenue : Z; credits : Z }.
End RangeBucket.

Module TypeStat.
Record acc := mk_acc { count : Z; revenue : Z; credits : Z; price : Z }.
Record t := mk { name : string; stat : acc }.   (* [{ name, ...data }] *)
End TypeStat.

Module Sales.
Record report (P B : Type) := mk {
  period : P;                     (* [year], or [startDate] and [endDate] *)
  total_packages : Z;
  total_revenue : Z;
  by_month : list B;
  by_package_type : list TypeStat.t
}.
Arguments mk {P B}.
Arguments period {P B}.
Arguments total_packages {P B}.
Arguments total_revenue {P B}.
Arguments by_month {P B}.
Arguments by_package_type {P B}.

(** The variables of the loop over the credit batches. *)
Record loop (B : Type) := mk_loop {
  salesByMonth : Dict.t string B;
  salesByPackageType : Dict.t string TypeStat.acc;
  totalRevenue : Z;
  totalPackages : Z
}.
Arguments mk_loop {B}.
Arguments salesByMonth {B}.
Arguments salesByPackageType {B}.
Arguments totalRevenue {B}.
Arguments totalPackages {B}.
End Sales.

Definition months : list string :=
  ["Enero"; "Febrero"; "Marzo"; "Abril"; "Mayo"; "Junio";
   "Julio"; "Agosto"; "Septiembre"; "Octubre"; "Noviembre"; "Diciembre"].

(** [new Map(packages?.map(p => [p.id, p]) || [])] *)
Definition packageMap (packages : response Package.t) : gmap Z Package.t :=
  foldl (fun m p => <[Package.id p := p]> m) ∅ (rows packages).

(** [pkg?.title] and [pkg?.price] *)
Definition pkg_title (pkg : option Package.t) : option string := pkg ≫= Package.title.
Definition pkg_price (pkg : option Package.t) : option Z := pkg ≫= Package.price.

(** The part of the loop body that is the same in both sales reports. *)
Definition add_package_type (o : Dict.t string TypeStat.acc) (pkg : option Package.t)
    (batch : CreditBatch.t) : Dict.t string TypeStat.acc :=
  let packageName := str_or (pkg_title pkg) "Paquete Desconocido" in
  let amount := num_or (pkg_price pkg) 0 in
  let cur :=
    match Dict.get o packageName with
    | Some c => c
    | None => TypeStat.mk_acc 0 0 0 (num_or (pkg_price pkg) 0)
    end in
  Dict.set o packageName
    (TypeStat.mk_acc (TypeStat.count cur + 1)
                     (TypeStat.revenue cur + amount)
                     (TypeStat.credits cur + num_or (CreditBatch.credits_total batch) 0)
                     (TypeStat.price cur)).

Definition package_types (o : Dict.t string TypeStat.acc) : list TypeStat.t :=
  sort (fun a b => TypeStat.count (TypeStat.stat b) - TypeStat.count (TypeStat.stat a))
       (map (fun e => TypeStat.mk (fst e) (snd e)) (Dict.entries o)).

Definition year_request (year : Z) (ord : option (string * bool)) : request :=
  {| filters := [f_gte "created_at" (Dayjs.num_string year +:+ "-01-01");
                 f_lte "created_at" (Dayjs.num_string year +:+ "-12-31")];
     order := ord |}.

Definition range_request (startDate endDate : string) (ord : option (string * bool)) : request :=
  {| filters := [f_gte "created_at" startDate; f_lte "created_at" endDate];
     order := ord |}.

(** [months.forEach((month, i) => salesByMonth[i + 1] = {...})] *)
Definition initial_months : Dict.t string Bucket.t :=
  foldl (fun o im => Dict.set o (Dayjs.num_string (Z.of_nat (fst im) + 1))
                       (Bucket.mk (snd im) 0 0 0))
        [] (imap (fun i m => (i, m)) months).

(** Reading [salesByMonth[month].count] throws a TypeError when the object
    has no such month. *)
Definition month_step (pm : gmap Z Package.t) (a : Sales.loop Bucket.t) (batch : CreditBatch.t)
  : result (Sales.loop Bucket.t) :=
  let month := Dayjs.month (CreditBatch.created_at batch) + 1 in
  let pkg := pm !! CreditBatch.package_id batch in
  let amount := num_or (pkg_price pkg) 0 in
  match Dict.get (Sales.salesByMonth a) (Dayjs.num_string month) with
  | None => Throw "TypeError"
  | Some b =>
      Return
        (Sales.mk_loop
           (Dict.set (Sales.salesByMonth a) (Dayjs.num_string month)
              (Bucket.mk (Bucket.month b) (Bucket.count b + 1) (Bucket.revenue b + amount)
                 (Bucket.credits b + num_or (CreditBatch.credits_total batch) 0)))
           (add_package_type (Sales.salesByPackageType a) pkg batch)
           (Sales.totalRevenue a + amount)
           (Sales.totalPackages a + 1))
  end.

Definition getPackageSalesByMonth (st : DataStore) (year : Z)
  : result (Sales.report Z Bucket.t) :=
  let creditBatches := from_credit_batches st (year_request year (Some ("created_at", true))) in
  match error creditBatches with
  | Some batchesError => Throw batchesError
  | None =>
      let packages := from_packages st in
      match error packages with
      | Some pkgError => Throw pkgError
      | None =>
          match forEach (month_step (packageMap packages)) (rows creditBatches)
                  (Sales.mk_loop initial_months [] 0 0) with
          | Throw e => Throw e
          | Return a =>
              Return (Sales.mk year (Sales.totalPackages a) (Sales.totalRevenue a)
                        (Dict.values (Sales.salesByMonth a))
                        (package_types (Sales.salesByPackageType a)))
          end
      end
  end.

(** [months.indexOf(name)] *)
Fixpoint indexOf (l : list string) (x : string) : Z :=
  match l with
  | [] => -1
  | y :: l' => if decide (x = y) then 0 else
                 let i := indexOf l' x in if i <? 0 then -1 else i + 1
  end.

Definition range_step (pm : gmap Z Package.t) (a : Sales.loop RangeBucket.t)
    (batch : CreditBatch.t) : Sales.loop RangeBucket.t :=
  let monthIndex := Dayjs.month (CreditBatch.created_at batch) in
  let year := Dayjs.year (CreditBatch.created_at batch) in
  let monthKey := Dayjs.num_string year +:+ "-" +:+ Dayjs.num_string monthIndex in
  let pkg := pm !! CreditBatch.package_id batch in
  let amount := num_or (pkg_price pkg) 0 in
  let b :=
    match Dict.get (Sales.salesByMonth a) monthKey with
    | Some b => b
    | None => RangeBucket.mk (nth (Z.to_nat monthIndex) months "") year 0 0 0
    end in
  Sales.mk_loop
    (Dict.set (Sales.salesByMonth a) monthKey
       (RangeBucket.mk (RangeBucket.month b) (RangeBucket.year b) (RangeBucket.count b + 1)
          (RangeBucket.revenue b + amount)
          (RangeBucket.credits b + num_or (CreditBatch.credits_total batch) 0)))
    (add_package_type (Sales.salesByPackageType a) pkg batch)
    (Sales.totalRevenue a + amount)
    (Sales.totalPackages a + 1).

Definition chronological (a b : RangeBucket.t) : Z :=
  if negb (RangeBucket.year a =? RangeBucket.year b)
  then RangeBucket.year a - RangeBucket.year b
  else indexOf months (RangeBucket.month a) - indexOf months (RangeBucket.month b).

Definition getPackageSalesByDateRange (st : DataStore) (startDate endDate : string)
  : result (Sales.report (string * string) RangeBucket.t) :=
  let creditBatches :=
    from_credit_batches st (range_request startDate endDate (Some ("created_at", true))) in
  match error creditBatches with
  | Some batchesError => Throw batchesError
  | None =>
      let packages := from_packages st in
      match error packages with
      | Some pkgError => Throw pkgError
      | None =>
          let a := foldl (range_step (packageMap packages)) (Sales.mk_loop [] [] 0 0)
                     (rows creditBatches) in
          Return (Sales.mk (startDate, endDate) (Sales.totalPackages a) (Sales.totalRevenue a)
                    (sort chronological (Dict.values (Sales.salesByMonth a)))
                    (package_types (Sales.salesByPackageType a)))
      end
  end.

(** ** 3. Top buyers *)

Module Buyer.
(** An entry of [userStats]. *)
Record stats := mk_stats {
  user_id : string;
  total_purchases : Z;
  total_spent : Z;
  total_credits : Z;
  packages : list string
}.

(** [{ rank, ...buyer, full_name, phone, favorite_package }] *)
Record t := mk {
  rank : Z;
  buyer : stats;
  full_name : string;
  phone : string;
  favorite_package : string
}.
End Buyer.

Definition getMostFrequent (arr : list string) : string :=
  match arr with
  | [] => "N/A"
  | _ =>
      let counts :=
        foldl (fun o item => Dict.set o item (num_or (Dict.get o item) 0 + 1)) [] arr in
      match sort (fun a b => snd b - snd a) (Dict.entries counts) with
      | [] => "N/A"
      | e :: _ => str_or (Some (fst e)) "N/A"
      end
  end.

Definition buyer_step (pm : gmap Z Package.t) (userStats : Dict.t string Buyer.stats)
    (batch : CreditBatch.t) : Dict.t string Buyer.stats :=
  let pkg := pm !! CreditBatch.package_id batch in
  let amount := num_or (pkg_price pkg) 0 in
  let cur :=
    match Dict.get userStats (CreditBatch.user_id batch) with
    | Some c => c
    | None => Buyer.mk_stats (CreditBatch.user_id batch) 0 0 0 []
    end in
  Dict.set userStats (CreditBatch.user_id batch)
    (Buyer.mk_stats (Buyer.user_id cur)
       (Buyer.total_purchases cur + 1)
       (Buyer.total_spent cur + amount)
       (Buyer.total_credits cur + num_or (CreditBatch.credits_total batch) 0)
       (Buyer.packages cur ++ [str_or (pkg_title pkg) "Desconocido"])).

(** Everything after the two reads; the failure of the packages read is not
    looked at, its rows are then none. *)
Definition rank_buyers (w : World) (creditBatches : list CreditBatch.t)
    (packages : response Package.t) (limit : Z) : list Buyer.t :=
  let userStats := foldl (buyer_step (packageMap packages)) [] creditBatches in
  let topBuyers :=
    slice (sort (fun a b => Buyer.total_spent b - Buyer.total_spent a) (Dict.values userStats))
          0 limit in
  imap (fun index buyer =>
          let profile := getProfile w (Buyer.user_id buyer) in
          Buyer.mk (Z.of_nat index + 1) buyer
            (formatUserName (Buyer.user_id buyer) profile)
            (formatPhone profile)
            (getMostFrequent (Buyer.packages buyer)))
       topBuyers.

Definition getTopBuyers (st : DataStore) (w : World) (year limit : Z) : result (list Buyer.t) :=
  let creditBatches := from_credit_batches st (year_request year None) in
  match error creditBatches with
  | Some batchesError => Throw batchesError
  | None => Return (rank_buyers w (rows creditBatches) (from_packages st) limit)
  end.

Definition getTopBuyersByDateRange (st : DataStore) (w : World) (startDate endDate : string)
    (limit : Z) : result (list Buyer.t) :=
  let creditBatches := from_credit_batches st (range_request startDate endDate None) in
  match error creditBatches with
  | Some batchesError => Throw batchesError
  | None => Return (rank_buyers w (rows creditBatches) (from_packages st) limit)
  end.

(** ** Purchase history of one user *)

Module Purchase.
Record t := mk {
  id : Z;
  date : Z;
  package_name : string;
  price : Z;
  credits_total : option Z;
  credits_remaining : Z
}.
End Purchase.

Definition getUserPurchaseHistory (st : DataStore) (userId : string) : result (list Purchase.t) :=
  let creditBatches :=
    from_credit_batches st
      {| filters := [f_eq "user_id" userId]; order := Some ("created_at", false) |} in
  match error creditBatches with
  | Some e => Throw e
  | None =>
      let pm := packageMap (from_packages st) in
      Return (map (fun batch =>
                     let pkg := pm !! CreditBatch.package_id batch in
                     Purchase.mk (CreditBatch.id batch) (CreditBatch.created_at batch)
                       (str_or (pkg_title pkg) "Desconocido")
                       (num_or (pkg_price pkg) 0)
                       (CreditBatch.credits_total batch)
                       (CreditBatch.credits_remaining batch))
                  (rows creditBatches))
  end.

(** ** 4. Retention metrics *)

Module Retention.
Record t := mk {
  total_registered_users : Z;
  total_unique_users : Z;
  active_users_30_days : Z;
  total_buyers_ever : Z;
  buyers_last_30_days : Z;
  users_with_credits : Z;
  total_credits_pending : Z;
  retention_rate : num_or_str;
  conversion_rate : num_or_str
}.
End Retention.

Definition all_rows : request := {| filters := []; order := None |}.

Definition recent_bookings_request (now : Z) : request :=
  {| filters := [f_gte "session_date" (Dayjs.format_date (Dayjs.subtract_days now 30))];
     order := None |}.

Definition active_batches_request : request :=
  {| filters := [f_gt "credits_remaining" 0]; order := None |}.

(** [total > 0 ? ((part / total) * 100).toFixed(1) : 0] *)
Definition rate (part total : Z) : num_or_str :=
  if 0 <? total then Str (toFixed1 (inject_Z part / inject_Z total * 100)) else Num 0.

(** No read of this function has its error looked at. *)
Definition getRetentionMetrics (st : DataStore) (w : World) (now : Z) : result Retention.t :=
  let allBookings := from_bookings st all_rows in
  let totalUniqueUsers := JsSet.size (JsSet.of_list (map Booking.user_id (rows allBookings))) in
  let recentBookings := from_bookings st (recent_bookings_request now) in
  let activeUsers30 := JsSet.size (JsSet.of_list (map Booking.user_id (rows recentBookings))) in
  let allBatches := from_credit_batches st all_rows in
  let buyersTotal := JsSet.size (JsSet.of_list (map CreditBatch.user_id (rows allBatches))) in
  let buyers30 :=
    JsSet.size (JsSet.of_list (map CreditBatch.user_id
      (filter (fun b => Dayjs.isAfter (CreditBatch.created_at b) (Dayjs.subtract_days now 30) = true)
              (rows allBatches)))) in
  let activeBatches := from_credit_batches st active_batches_request in
  let usersWithCredits :=
    JsSet.size (JsSet.of_list (map CreditBatch.user_id (rows activeBatches))) in
  let totalCreditsAvailable :=
    foldl (fun sum b => sum + CreditBatch.credits_remaining b) 0 (rows activeBatches) in
  let profileCount :=
    num_or (match profilesCache w with
            | Some cache => Some (Z.of_nat (size cache))
            | None => None
            end) totalUniqueUsers in
  Return (Retention.mk profileCount totalUniqueUsers activeUsers30 buyersTotal buyers30
            usersWithCredits totalCreditsAvailable
            (rate activeUsers30 totalUniqueUsers)
            (rate buyersTotal totalUniqueUsers)).

(** ** 6. Attendance statistics *)

Module Attendance.
Record coach := mk_coach { name : option string; classes : Z; coach_attendees : Z }.
Record slot := mk_slot { time : string; count : Z; attendees : Z }.
Record t := mk {
  by_coach : list coach;
  by_time : list slot;
  total_bookings : Z;
  total_attendees : Z
}.
End Attendance.

(** A null used as a property name is the name "null". *)
Definition property_name (x : option string) : string :=
  match x with Some s => s | None => "null" end.

Definition active_bookings_request : request :=
  {| filters := [f_eq "status" "active"]; order := None |}.

Definition coach_step (coachStats : Dict.t string Attendance.coach) (b : Booking.t)
  : Dict.t string Attendance.coach :=
  let key := property_name (Booking.coach_name b) in
  let cur :=
    match Dict.get coachStats key with
    | Some c => c
    | None => Attendance.mk_coach (Booking.coach_name b) 0 0
    end in
  Dict.set coachStats key
    (Attendance.mk_coach (Attendance.name cur) (Attendance.classes cur + 1)
       (Attendance.coach_attendees cur + num_or (Booking.total_attendees b) 1)).

Definition time_step (timeStats : Dict.t string Attendance.slot) (b : Booking.t)
  : Dict.t string Attendance.slot :=
  let cur :=
    match Dict.get timeStats (Booking.session_time b) with
    | Some c => c
    | None => Attendance.mk_slot (Booking.session_time b) 0 0
    end in
  Dict.set timeStats (Booking.session_time b)
    (Attendance.mk_slot (Attendance.time cur) (Attendance.count cur + 1)
       (Attendance.attendees cur + num_or (Booking.total_attendees b) 1)).

(** [bookings?.reduce((sum, b) => sum + (b.total_attendees || 1), 0) || 0] *)
Definition sum_attendees (bookings : list Booking.t) : Z :=
  foldl (fun sum b => sum + num_or (Booking.total_attendees b) 1) 0 bookings.

Definition getAttendanceStats (st : DataStore) : result Attendance.t :=
  let bookings := rows (from_bookings st active_bookings_request) in
  let coachStats := foldl coach_step [] bookings in
  let timeStats := foldl time_step [] bookings in
  Return (Attendance.mk
            (sort (fun a b => Attendance.coach_attendees b - Attendance.coach_attendees a)
                  (Dict.values coachStats))
            (sort (fun a b => Attendance.count b - Attendance.count a) (Dict.values timeStats))
            (Z.of_nat (length bookings))
            (sum_attendees bookings)).

(** ** Weekly schedule with occupancy *)

Module Schedule.
(** An entry of [sessionMap]. *)
Record info := mk_info {
  info_class_name : option string;
  info_subtitle : option string;
  info_max_capacity : Z
}.

(** An entry of [classesByDatetime]: one class on one date. *)
Record occurrence := mk_occurrence {
  date : option Z;
  occ_time : string;
  occ_attendees : Z
}.

(** An entry of [scheduleStats]; [day] is [None] for [undefined].  The
    temporary [attendees_per_class] array is deleted before the slot is
    returned and is left out. *)
Record slot := mk_slot {
  day : option string;
  time : string;
  class_name : string;
  subtitle : string;
  max_capacity : Z;
  total_classes : Z;
  total_attendees : Z;
  avg_attendance : Q;
  occupancy_rate : Z
}.
End Schedule.

Definition weekly_request (now : Z) : request :=
  {| filters := [f_in "status" ["active"; "completed"];
                 f_gte "session_date" (Dayjs.format_date (Dayjs.subtract_days now 30))];
     order := None |}.

Definition dayOrder : list string :=
  ["LUNES"; "MARTES"; "MIÉRCOLES"; "JUEVES"; "VIERNES"; "SÁBADO"].

(** [dayMap[dayjs(date).day()]]; an invalid date has no day name. *)
Definition dayMap (dayOfWeek : Z) : option string :=
  nth_error ["DOMINGO"; "LUNES"; "MARTES"; "MIÉRCOLES"; "JUEVES"; "VIERNES"; "SÁBADO"]
            (Z.to_nat dayOfWeek).

Definition day_name_of (date : option Z) : option string :=
  match date with
  | Some d => dayMap (Dayjs.day d)
  | None => None
  end.

(** The first template of a weekday wins. *)
Definition sessionMap (sessions : response Session.t) : gmap string Schedule.info :=
  foldl (fun m s =>
           match m !! Session.day_name s with
           | Some _ => m
           | None =>
               <[Session.day_name s :=
                   Schedule.mk_info (Session.class_name s) (Session.class_subtitle s)
                     (num_or (Session.max_spots s) 14)]> m
           end)
        ∅ (rows sessions).

(** Step 1: one entry per date and time.  The key [`${date}-${time}`] is the
    pair: a date has a fixed width, so the two determine each other. *)
Definition class_step (classesByDatetime : Dict.t (option Z * string) Schedule.occurrence)
    (b : Booking.t) : Dict.t (option Z * string) Schedule.occurrence :=
  let time := substring0 5 (Booking.session_time b) in
  let key := (Booking.session_date b, time) in
  let cur :=
    match Dict.get classesByDatetime key with
    | Some c => c
    | None => Schedule.mk_occurrence (Booking.session_date b) time 0
    end in
  Dict.set classesByDatetime key
    (Schedule.mk_occurrence (Schedule.date cur) (Schedule.occ_time cur)
       (Schedule.occ_attendees cur + num_or (Booking.total_attendees b) 1)).

(** Step 2: one entry per weekday and time.  The key [`${dayName}-${time}`]
    is the pair: no day name has a hyphen. *)
Definition slot_step (sm : gmap string Schedule.info)
    (scheduleStats : Dict.t (option string * string) Schedule.slot)
    (cls : Schedule.occurrence) : Dict.t (option string * string) Schedule.slot :=
  let dayName := day_name_of (Schedule.date cls) in
  let key := (dayName, Schedule.occ_time cls) in
  let cur :=
    match Dict.get scheduleStats key with
    | Some c => c
    | None =>
        let sessionInfo := dayName ≫= (fun d => sm !! d) in
        Schedule.mk_slot dayName (Schedule.occ_time cls)
          (str_or (sessionInfo ≫= Schedule.info_class_name) "Clase")
          (str_or (sessionInfo ≫= Schedule.info_subtitle) "")
          (num_or (Schedule.info_max_capacity <$> sessionInfo) 14)
          0 0 0 0
    end in
  Dict.set scheduleStats key
    (Schedule.mk_slot (Schedule.day cur) (Schedule.time cur) (Schedule.class_name cur)
       (Schedule.subtitle cur) (Schedule.max_capacity cur)
       (Schedule.total_classes cur + 1)
       (Schedule.total_attendees cur + Schedule.occ_attendees cls)
       (Schedule.avg_attendance cur) (Schedule.occupancy_rate cur)).

(** Step 3: the averages.  A number has one representation, hence [Qred]. *)
Definition average (s : Schedule.slot) : Schedule.slot :=
  if 0 <? Schedule.total_classes s then
    let avg :=
      Qred (inject_Z (Math_round (inject_Z (Schedule.total_attendees s)
                                  / inject_Z (Schedule.total_classes s) * 10)) / 10) in
    Schedule.mk_slot (Schedule.day s) (Schedule.time s) (Schedule.class_name s)
      (Schedule.subtitle s) (Schedule.max_capacity s) (Schedule.total_classes s)
      (Schedule.total_attendees s) avg
      (Math_round (avg / inject_Z (Schedule.max_capacity s) * 100))
  else s.

(** [a.localeCompare(b)] on times, which are ASCII: the order of the bytes. *)
Definition localeCompare (a b : string) : Z :=
  match String.compare a b with
  | Lt => -1
  | Eq => 0
  | Gt => 1
  end.

Definition scheduleStats (bookings : list Booking.t) (sessions : response Session.t)
  : list Schedule.slot :=
  let classesByDatetime := foldl class_step [] bookings in
  map average
    (Dict.map_values (foldl (slot_step (sessionMap sessions)) []
                            (Dict.map_values classesByDatetime))).

(** A failed read of the bookings is logged and answered with [{}]. *)
Definition getWeeklySchedule (st : DataStore) (now : Z)
  : result (Dict.t string (list Schedule.slot)) :=
  let bookings := from_bookings st (weekly_request now) in
  match error bookings with
  | Some bookErr => Return []
  | None =>
      let stats := scheduleStats (rows bookings) (from_sessions st) in
      Return (map (fun day =>
                     (day, sort (fun a b => localeCompare (Schedule.time a) (Schedule.time b))
                                (filter (fun s => Schedule.day s = Some day) stats)))
                  dayOrder)
  end.

(** ** Credits comparison and recurring clients *)

Module Credits.
Record period := mk_period {
  credits_purchased : Z;
  credits_used : Z;
  unique_buyers : Z;
  active_clients : Z
}.

Record t := mk {
  period1 : period;
  period2 : period;
  recurring_clients : Z;
  recurring_percentage : Z
}.
End Credits.

Definition period_batches (s e : string) : request :=
  {| filters := [f_gte "created_at" s; f_lte "created_at" e]; order := None |}.

Definition period_bookings (s e : string) : request :=
  {| filters := [f_eq "status" "active"; f_gte "session_date" s; f_lte "session_date" e];
     order := None |}.

Definition period_stats (batches : list CreditBatch.t) (bookings : list Booking.t)
  : Credits.period :=
  Credits.mk_period
    (foldl (fun sum b => sum + num_or (CreditBatch.credits_total b) 0) 0 batches)
    (sum_attendees bookings)
    (JsSet.size (JsSet.of_list (map CreditBatch.user_id batches)))
    (JsSet.size (JsSet.of_list (map Booking.user_id bookings))).

(** No read of this function has its error looked at. *)
Definition getCreditsComparison (st : DataStore)
    (period1Start period1End period2Start period2End : string) : result Credits.t :=
  let batches1 := rows (from_credit_batches st (period_batches period1Start period1End)) in
  let bookings1 := rows (from_bookings st (period_bookings period1Start period1End)) in
  let batches2 := rows (from_credit_batches st (period_batches period2Start period2End)) in
  let bookings2 := rows (from_bookings st (period_bookings period2Start period2End)) in
  let users1 := JsSet.of_list (map CreditBatch.user_id batches1) in
  let users2 := JsSet.of_list (map CreditBatch.user_id batches2) in
  let recurring := filter (fun u => JsSet.has users2 u = true) users1 in
  Return (Credits.mk
            (period_stats batches1 bookings1)
            (period_stats batches2 bookings2)
            (Z.of_nat (length recurring))
            (if 0 <? JsSet.size users1
             then Math_round (inject_Z (Z.of_nat (length recurring))
                              / inject_Z (JsSet.size users1) * 100)
             else 0)).

(** * Vocabulary of the properties *)

(** Descending order by a numeric key, and the comparator
    [(a, b) => key(b) - key(a)] that sorts into it. *)
Definition descending {A} (key : A -> Z) (a b : A) : Prop := key b <= key a.
Definition by_key_desc {A} (key : A -> Z) (a b : A) : Z := key b - key a.

(** A store in which every read fails, and the store that answers every
    read of a table with the same rows, whatever the filters (the rows of
    the examples below satisfy the filters of the reads they are used
    with). *)
Definition store_down : DataStore :=
  {| from_profiles := failed "down";
     from_bookings := fun _ => failed "down";
     from_credit_batches := fun _ => failed "down";
     from_packages := failed "down";
     from_sessions := failed "down" |}.

Definition store_of (profiles : response Profile.t) (bookings : list Booking.t)
    (batches : list CreditBatch.t) (packages : list Package.t) (sessions : list Session.t)
  : DataStore :=
  {| from_profiles := profiles;
     from_bookings := fun _ => ok bookings;
     from_credit_batches := fun _ => ok batches;
     from_packages := ok packages;
     from_sessions := ok sessions |}.

(** What the first load found: nothing usable. *)
Definition nothing_loaded (r : response Profile.t) : Prop :=
  error r <> None \/ data r = None \/ data r = Some [].

(** The worlds after a first call on [first] followed by calls on [later]. *)
Definition later_calls (later : list DataStore) (w : World)
  : list (gmap string Profile.t) * World :=
  foldl (fun acc st => let '(dir, w') := loadProfiles st (snd acc) in (fst acc ++ [dir], w'))
        ([], w) later.

(** The date a booking counts with, and all the dates of one user in the two
    sources, bookings first. *)
Definition bookingDate (b : Booking.t) : Z :=
  match Booking.session_date b with Some d => d | None => Booking.created_at b end.

Definition activity_dates (u : string) (bookings : list Booking.t)
    (creditBatches : list CreditBatch.t) : list Z :=
  map bookingDate (filter (fun b => Booking.user_id b = u) bookings)
  ++ map CreditBatch.created_at (filter (fun c => CreditBatch.user_id c = u) creditBatches).

(** The latest of a list of dates, if there is any. *)
Definition later (o : option Z) (d : Z) : option Z :=
  Some (match o with Some m => Z.max m d | None => d end).

Definition latest (l : list Z) : option Z := foldl later None l.

(** Now is 2026-03-01T12:00; with a threshold of 30 days the cut-off is
    2026-01-30T12:00.  "at" bought exactly then, "before" one day earlier. *)
Definition dormant_store : DataStore :=
  store_of (ok []) []
    [CreditBatch.mk 1 "at" 1 (Some 10) 0 1769774400000;
     CreditBatch.mk 2 "before" 1 (Some 10) 0 1769688000000] [] [].

(** The clients of one page, as [getDormantClientsPaginated] returns them. *)
Definition clients_of_page (st : DataStore) (w : World) (now days pageSize : Z) (page : nat)
  : list Dormant.client :=
  match getDormantClientsPaginated st w now days (Z.of_nat page) pageSize with
  | Return pr => Dormant.page_clients pr
  | Throw _ => []
  end.

(** Three dormant clients, two per page. *)
Definition three_dormant : DataStore :=
  store_of (ok []) []
    [CreditBatch.mk 1 "a" 1 None 0 0;
     CreditBatch.mk 2 "b" 1 None 0 86400000;
     CreditBatch.mk 3 "c" 1 None 0 172800000] [] [].

(** The ranks of a list are 1, 2, ... and the amounts spent never go up. *)
Definition dense_ranks (r : list Buyer.t) : Prop :=
  map Buyer.rank r = map Z.of_nat (seq 1 (length r)).

Definition spent_non_increasing (r : list Buyer.t) : Prop :=
  forall i a b, r !! i = Some a -> r !! S i = Some b ->
                Buyer.total_spent (Buyer.buyer b) <= Buyer.total_spent (Buyer.buyer a).

(** Four buyers, two of them with the same amount; the best three. *)
Definition buyers_store : DataStore :=
  store_of (ok [Profile.mk "bea" (Some "Bea") (Some "555")]) []
    [CreditBatch.mk 1 "ana" 1 (Some 10) 0 1767225600000;
     CreditBatch.mk 2 "bea" 2 (Some 20) 0 1767225600000;
     CreditBatch.mk 3 "cora" 1 (Some 10) 0 1767225600000;
     CreditBatch.mk 4 "bea" 1 (Some 10) 0 1767225600000;
     CreditBatch.mk 5 "dana" 3 None 0 1767225600000]
    [Package.mk 1 (Some "10 clases") (Some 100) (Some 10);
     Package.mk 2 (Some "20 clases") (Some 180) (Some 20)] [].

(** The sum of a numeric field over a list. *)
Definition sum_by {A} (f : A -> Z) (l : list A) : Z := foldr (fun x s => f x + s) 0 l.


Definition all_months (o : Dict.t string Bucket.t) : Prop :=
  forall m, 1 <= m <= 12 -> is_Some (Dict.get o (Dayjs.num_string m)).

(** Three purchases of package 1 in January 2026 and one unknown package in
    March. *)
Definition sales_store : DataStore :=
  store_of (ok []) []
    [CreditBatch.mk 1 "ana" 1 (Some 10) 0 1767225600000;
     CreditBatch.mk 2 "bea" 1 (Some 10) 0 1767312000000;
     CreditBatch.mk 3 "ana" 1 (Some 10) 0 1768000000000;
     CreditBatch.mk 4 "cora" 9 (Some 5) 0 1772366400000]
    [Package.mk 1 (Some "10-class") (Some 100) (Some 10)] [].



(** One user with bookings and three purchasers: the conversion rate is
    300 per cent. *)
Definition more_buyers_than_users : DataStore :=
  store_of (ok []) [Booking.mk "u1" (Some 1772366400000) "09:00" "active" (Some 1) None 0]
    [CreditBatch.mk 1 "u1" 1 (Some 10) 5 1772366400000;
     CreditBatch.mk 2 "u2" 1 (Some 10) 5 1772366400000;
     CreditBatch.mk 3 "u3" 1 (Some 10) 5 1772366400000] [] [].


(** Two users with bookings, one of them a purchaser. *)
Definition half_converted : DataStore :=
  store_of (ok [])
    [Booking.mk "u1" (Some 1772366400000) "09:00" "active" (Some 1) None 0;
     Booking.mk "u2" (Some 1772366400000) "09:00" "active" (Some 1) None 0;
     Booking.mk "u3" (Some 1772366400000) "09:00" "active" (Some 1) None 0]
    [CreditBatch.mk 1 "u1" 1 (Some 10) 5 1772366400000] [] [].

(** Purchasers A, B, C in January and B, C, D in February. *)
Definition two_periods : DataStore :=
  {| from_profiles := ok [];
     from_bookings := fun _ => ok [];
     from_credit_batches := fun q =>
       match filters q with
       | f_gte _ "2026-01-01" :: _ =>
           ok [CreditBatch.mk 1 "A" 1 (Some 10) 0 1767225600000;
               CreditBatch.mk 2 "B" 1 (Some 10) 0 1767312000000;
               CreditBatch.mk 3 "C" 1 (Some 10) 0 1767398400000;
               CreditBatch.mk 4 "B" 1 (Some 10) 0 1767484800000]
       | _ =>
           ok [CreditBatch.mk 5 "B" 1 (Some 10) 0 1769904000000;
               CreditBatch.mk 6 "C" 1 (Some 10) 0 1769990400000;
               CreditBatch.mk 7 "D" 1 (Some 10) 0 1770076800000]
       end;
     from_packages := ok [];
     from_sessions := ok [] |}.





(** The weekly slot an occurrence falls in. *)
Definition slot_key (cls : Schedule.occurrence) : option string * string :=
  (day_name_of (Schedule.date cls), Schedule.occ_time cls).

(** What holds of every entry of [scheduleStats] before the averages. *)
Definition slot_ok (sm : gmap string Schedule.info)
    (e : (option string * string) * Schedule.slot) : Prop :=
  Schedule.day (snd e) = fst (fst e)
  /\ Schedule.time (snd e) = snd (fst e)
  /\ Schedule.max_capacity (snd e)
     = num_or (Schedule.info_max_capacity <$> (fst (fst e) ≫= (fun d => sm !! d))) 14
  /\ 1 <= Schedule.total_classes (snd e).

Definition classes_at (o : Dict.t (option string * string) Schedule.slot)
    (k : option string * string) : Z :=
  default 0 (Schedule.total_classes <$> Dict.get o k).

Definition attendees_at (o : Dict.t (option string * string) Schedule.slot)
    (k : option string * string) : Z :=
  default 0 (Schedule.total_attendees <$> Dict.get o k).


(** What one credit batch adds to the revenue and to the credits: the price
    of its package, 0 for a missing package or price, and its
    [credits_total], 0 when missing. *)
Definition batch_price (pm : gmap Z Package.t) (batch : CreditBatch.t) : Z :=
  num_or (pkg_price (pm !! CreditBatch.package_id batch)) 0.

Definition batch_credits (batch : CreditBatch.t) : Z :=
  num_or (CreditBatch.credits_total batch) 0.


(** Earlier or same month: the order the range report is sorted into. *)
Definition chronological_le (a b : RangeBucket.t) : Prop :=
  RangeBucket.year a < RangeBucket.year b
  \/ (RangeBucket.year a = RangeBucket.year b
      /\ indexOf months (RangeBucket.month a) <= indexOf months (RangeBucket.month b)).





(** The package types after the batches [l], in both sales reports. *)
Definition types_after (pm : gmap Z Package.t) (o : Dict.t string TypeStat.acc)
    (l : list CreditBatch.t) : Dict.t string TypeStat.acc :=
  foldl (fun o batch => add_package_type o (pm !! CreditBatch.package_id batch) batch) o l.

(** A list of package types as both reports give it: most sold first, no
    name twice, nothing unsold. *)
Definition types_ranked (l : list TypeStat.t) : Prop :=
  (forall i a b, l !! i = Some a -> l !! S i = Some b ->
                 TypeStat.count (TypeStat.stat b) <= TypeStat.count (TypeStat.stat a))
  /\ NoDup (map TypeStat.name l)
  /\ (forall t, t ∈ l -> 1 <= TypeStat.count (TypeStat.stat t)).

(** The title a batch adds to the purchases of its buyer. *)
Definition buyer_title (pm : gmap Z Package.t) (batch : CreditBatch.t) : string :=
  str_or (pkg_title (pm !! CreditBatch.package_id batch)) "Desconocido".

(** The batches of one user, in the order read. *)
Definition purchases_of (u : string) (batches : list CreditBatch.t) : list CreditBatch.t :=
  filter (fun batch => CreditBatch.user_id batch = u) batches.

(** The statistics [s] after the batches [l] were added to them. *)
Definition buyer_plus (pm : gmap Z Package.t) (s : Buyer.stats) (l : list CreditBatch.t)
  : Buyer.stats :=
  Buyer.mk_stats (Buyer.user_id s)
    (Buyer.total_purchases s + Z.of_nat (length l))
    (Buyer.total_spent s + sum_by (batch_price pm) l)
    (Buyer.total_credits s + sum_by batch_credits l)
    (Buyer.packages s ++ map (buyer_title pm) l).

(** An entry of the ranking sums up the batches of its user. *)
Definition summarises (w : World) (pm : gmap Z Package.t) (batches : list CreditBatch.t)
    (b : Buyer.t) : Prop :=
  let u := Buyer.user_id (Buyer.buyer b) in
  purchases_of u batches <> []
  /\ Buyer.buyer b = buyer_plus pm (Buyer.mk_stats u 0 0 0 []) (purchases_of u batches)
  /\ Buyer.full_name b = formatUserName u (getProfile w u)
  /\ Buyer.phone b = formatPhone (getProfile w u)
  /\ Buyer.favorite_package b = getMostFrequent (Buyer.packages (Buyer.buyer b)).

(** The ranking [r] of the batches: one entry per listed user, each summing
    up the batches of its user. *)
Definition ranking_of (w : World) (pm : gmap Z Package.t) (batches : list CreditBatch.t)
    (r : list Buyer.t) : Prop :=
  NoDup (map (fun b => Buyer.user_id (Buyer.buyer b)) r)
  /\ forall b, b ∈ r -> summarises w pm batches b.

(** The ranking [r] holds the [limit] best buyers: as many entries as the
    limit and the number of buyers allow, and no buyer left out spent more
    than a listed one. *)
Definition best_buyers (pm : gmap Z Package.t) (batches : list CreditBatch.t) (limit : Z)
    (r : list Buyer.t) : Prop :=
  length r = Nat.min (Z.to_nat limit)
               (size (list_to_set (map CreditBatch.user_id batches) : gset string))
  /\ forall u b,
       u ∈ map CreditBatch.user_id batches ->
       u ∉ map (fun b => Buyer.user_id (Buyer.buyer b)) r ->
       b ∈ r ->
       sum_by (batch_price pm) (purchases_of u batches) <= Buyer.total_spent (Buyer.buyer b).



(** The last profile row with the id [u], if any. *)
Definition last_profile (u : string) (l : list Profile.t) : option Profile.t :=
  last (filter (fun p => Profile.id p = u) l).

(** ** 5. Popular classes *)

Module Popular.
(** An entry of [dayStats]. *)
Record t := mk {
  name : option string;
  subtitle : option string;
  day : string;
  count : Z;
  attendees : Z
}.
End Popular.

(** [dayStats[s.day_name] = { ... }]: a later session of the same day
    replaces the entry, which keeps its place. *)
Definition template_step (dayStats : Dict.t string Popular.t) (s : Session.t)
  : Dict.t string Popular.t :=
  Dict.set dayStats (Session.day_name s)
    (Popular.mk (Session.class_name s) (Session.class_subtitle s) (Session.day_name s) 0 0).

(** The property name [dayMap[dayjs(b.session_date).day()]] of a booking;
    without a date it is the name "undefined". *)
Definition booking_day (b : Booking.t) : string :=
  match day_name_of (Booking.session_date b) with
  | Some d => d
  | None => "undefined"
  end.

Definition popular_step (dayStats : Dict.t string Popular.t) (b : Booking.t)
  : Dict.t string Popular.t :=
  match Dict.get dayStats (booking_day b) with
  | Some d =>
      Dict.set dayStats (booking_day b)
        (Popular.mk (Popular.name d) (Popular.subtitle d) (Popular.day d)
           (Popular.count d + 1)
           (Popular.attendees d + num_or (Booking.total_attendees b) 1))
  | None => dayStats
  end.

(** No read of this function has its error looked at. *)
Definition getPopularClasses (st : DataStore) : result (list Popular.t) :=
  let sessions := from_sessions st in
  let bookings := from_bookings st active_bookings_request in
  let dayStats := foldl popular_step (foldl template_step [] (rows sessions)) (rows bookings) in
  Return (sort (fun a b => Popular.attendees b - Popular.attendees a)
               (filter (fun d => 0 < Popular.count d) (Dict.values dayStats))).

(** The bookings of the weekdays that have a session template. *)
Definition booked_on_template (sessions : list Session.t) (bookings : list Booking.t)
  : list Booking.t :=
  filter (fun b => booking_day b ∈ map Session.day_name sessions) bookings.

(** What the loops of [getPopularClasses] keep of [dayStats]. *)
Definition day_stats_ok (e : string * Popular.t) : Prop :=
  Popular.day (snd e) = fst e /\ 0 <= Popular.count (snd e).

Definition fresh_entry (e : string * Popular.t) : Prop :=
  Popular.day (snd e) = fst e /\ Popular.count (snd e) = 0 /\ Popular.attendees (snd e) = 0.

(** The classes [getPopularClasses] returns: booked at least once, most
    attended first, one per weekday. *)
Definition classes_ranked (l : list Popular.t) : Prop :=
  (forall d, d ∈ l -> 1 <= Popular.count d)
  /\ (forall i a b, l !! i = Some a -> l !! S i = Some b ->
                    Popular.attendees b <= Popular.attendees a)
  /\ NoDup (map Popular.day l).

(** The sum of the field [val] over the entries of a dictionary whose key
    satisfies [Q]. *)
Definition grouped_sum {K V} (val : V -> Z) (Q : K -> Prop) `{!forall k, Decision (Q k)}
    (o : Dict.t K V) : Z :=
  sum_by (fun e => val (snd e)) (filter (fun e => Q (fst e)) o).

(** The key of the class occurrence a booking belongs to. *)
Definition class_key (b : Booking.t) : option Z * string :=
  (Booking.session_date b, substring0 5 (Booking.session_time b)).

(** The attendees a booking counts for. *)
Definition attendees_of (b : Booking.t) : Z := num_or (Booking.total_attendees b) 1.

(** * Properties *)

(** ** Facts about the helpers *)

Section SortFacts.
Context {A : Type} (cmp : A -> A -> Z).

Lemma insert_sorted_perm x l : insert_sorted cmp x l ≡ₚ x :: l.
Proof.
  induction l as [|y l IH]; simpl; [done|].
  destruct (cmp x y <=? 0); [done|].
  rewrite IH. apply Permutation_swap.
Qed.

Lemma sort_perm l : sort cmp l ≡ₚ l.
Proof.
  induction l as [|x l IH]; simpl; [done|].
  rewrite insert_sorted_perm. by rewrite IH.
Qed.

Lemma sort_length l : length (sort cmp l) = length l.
Proof. apply Permutation_length, sort_perm. Qed.

Lemma elem_of_sort x l : x ∈ sort cmp l <-> x ∈ l.
Proof. by rewrite sort_perm. Qed.
End SortFacts.

Section SortDescending.
Context {A : Type} (key : A -> Z).

Lemma insert_descending x l :
  StronglySorted (descending key) l -> StronglySorted (descending key) (insert_sorted (by_key_desc key) x l).
Proof.
  induction 1 as [|y l Hl IH Hy]; simpl.
  - repeat constructor.
  - unfold by_key_desc at 1. destruct (Z.leb_spec (key y - key x) 0) as [Hle|Hgt].
    + constructor; [by constructor|].
      constructor; [unfold descending; lia|].
      eapply Forall_impl; [exact Hy|]. unfold descending. intros z Hz. lia.
    + constructor; [exact IH|].
      rewrite insert_sorted_perm. constructor; [unfold descending; lia|exact Hy].
Qed.

Lemma sort_descending l : StronglySorted (descending key) (sort (by_key_desc key) l).
Proof.
  induction l as [|x l IH]; simpl; [constructor|]. by apply insert_descending.
Qed.

Lemma descending_take n l : StronglySorted (descending key) l -> StronglySorted (descending key) (take n l).
Proof.
  intros H. rewrite <- (take_drop n l) in H. by apply StronglySorted_app_1_l in H.
Qed.

Lemma descending_drop n l : StronglySorted (descending key) l -> StronglySorted (descending key) (drop n l).
Proof.
  intros H. rewrite <- (take_drop n l) in H. by apply StronglySorted_app_1_r in H.
Qed.

Lemma descending_adjacent l i a b :
  StronglySorted (descending key) l -> l !! i = Some a -> l !! S i = Some b -> key b <= key a.
Proof.
  intros H. revert i. induction H as [|x l Hl IH Hx]; intros i Ha Hb; [done|].
  destruct i as [|i]; simpl in *.
  - inversion Ha; subst. rewrite Forall_forall in Hx.
    apply Hx. eapply list_elem_of_lookup_2. exact Hb.
  - eauto.
Qed.
End SortDescending.

Section DictFacts.
Context {K : Type} `{EqDecision K} {V : Type}.
Implicit Types (o : Dict.t K V) (k : K) (v : V).

Lemma get_set_eq o k v : Dict.get (Dict.set o k v) k = Some v.
Proof.
  induction o as [|[k' v'] o IH]; simpl.
  - by rewrite decide_True.
  - destruct (decide (k = k')) as [->|Hne]; simpl.
    + by rewrite decide_True.
    + by rewrite decide_False.
Qed.

Lemma get_set_ne o k k' v : k <> k' -> Dict.get (Dict.set o k v) k' = Dict.get o k'.
Proof.
  intros Hne. induction o as [|[k0 v0] o IH]; simpl.
  - by rewrite decide_False.
  - destruct (decide (k = k0)) as [->|Hne0]; simpl.
    + by rewrite !(decide_False (P := k' = k0)).
    + destruct (decide (k' = k0)); [done|exact IH].
Qed.

Lemma keys_set_absent o k v : Dict.get o k = None -> Dict.set o k v = o ++ [(k, v)].
Proof.
  induction o as [|[k' v'] o IH]; simpl; [done|].
  destruct (decide (k = k')); [done|]. intros H. by rewrite IH.
Qed.

Lemma set_present o k v v0 :
  Dict.get o k = Some v0 ->
  exists o1 o2, o = o1 ++ (k, v0) :: o2 /\ Dict.set o k v = o1 ++ (k, v) :: o2.
Proof.
  induction o as [|[k' v'] o IH]; simpl; [done|].
  destruct (decide (k = k')) as [->|Hne].
  - intros [= ->]. by exists [], o.
  - intros H. destruct (IH H) as (o1 & o2 & -> & ->).
    by exists ((k', v') :: o1), o2.
Qed.

Lemma get_Some_elem_of o k v : Dict.get o k = Some v -> (k, v) ∈ o.
Proof.
  induction o as [|[k' v'] o IH]; simpl; [done|].
  destruct (decide (k = k')) as [->|Hne].
  - intros [= ->]. left.
  - intros H. right. auto.
Qed.

Lemma get_None_not_elem_of o k v : Dict.get o k = None -> (k, v) ∉ o.
Proof.
  induction o as [|[k' v'] o IH]; simpl; [intros _; apply not_elem_of_nil|].
  destruct (decide (k = k')) as [->|Hne]; [done|].
  intros H Hin. apply elem_of_cons in Hin as [[= ? ?]|Hin]; [done|]. by apply (IH H).
Qed.

Lemma keys_set o k v :
  NoDup (map fst o) -> NoDup (map fst (Dict.set o k v)).
Proof.
  intros Hnd. destruct (Dict.get o k) as [v0|] eqn:Hget.
  - destruct (set_present o k v v0 Hget) as (o1 & o2 & Ho & ->).
    rewrite Ho in Hnd. by rewrite map_app in *.
  - rewrite keys_set_absent by done. rewrite map_app. simpl.
    apply NoDup_app. split; [done|]. split; [|apply NoDup_singleton].
    intros x Hx Hx'. apply list_elem_of_singleton in Hx' as ->.
    apply list_elem_of_fmap in Hx as ([k' v'] & Hk & Hin). simpl in Hk. subst k'.
    by apply (get_None_not_elem_of o k v').
Qed.

Lemma elem_of_get o k v : NoDup (map fst o) -> (k, v) ∈ o -> Dict.get o k = Some v.
Proof.
  induction o as [|[k' v'] o IH]; simpl; [intros _ H; by apply elem_of_nil in H|].
  intros Hnd Hin. apply NoDup_cons in Hnd as [Hk' Hnd].
  apply elem_of_cons in Hin as [[= -> ->]|Hin].
  - by rewrite decide_True.
  - destruct (decide (k = k')) as [->|Hne]; [|by apply IH].
    exfalso. apply Hk'. apply list_elem_of_fmap. by exists (k', v).
Qed.
End DictFacts.

Lemma entries_perm {V} (o : Dict.t string V) : Dict.entries o ≡ₚ o.
Proof.
  unfold Dict.entries. rewrite sort_perm.
  induction o as [|kv o IH]; [done|].
  rewrite !filter_cons. destruct (decide (Dict.is_index kv = true)) as [Hi|Hi].
  - rewrite decide_False by (intros H; by apply H). simpl. by rewrite IH.
  - rewrite decide_True by done. rewrite <- Permutation_middle. by rewrite IH.
Qed.

Lemma values_perm {V} (o : Dict.t string V) : Dict.values o ≡ₚ map snd o.
Proof. unfold Dict.values. by rewrite entries_perm. Qed.

(** ** The profile cache (C10) *)

Lemma loadProfiles_sets_cache st w :
  profilesCache (snd (loadProfiles st w)) = Some (fst (loadProfiles st w)).
Proof.
  unfold loadProfiles. destruct (profilesCache w) eqn:Hc; [done|].
  destruct (error (from_profiles st)); [done|].
  by destruct (data (from_profiles st)) as [[|]|].
Qed.

Lemma loadProfiles_again st dir w :
  profilesCache w = Some dir -> loadProfiles st w = (dir, w).
Proof. intros H. unfold loadProfiles. by rewrite H. Qed.

Lemma later_calls_fixed later dir w :
  profilesCache w = Some dir ->
  later_calls later w = (replicate (length later) dir, w).
Proof.
  intros Hc. unfold later_calls.
  assert (forall seen, foldl (fun acc st => let '(d, w') := loadProfiles st (snd acc) in
                                            (fst acc ++ [d], w')) (seen, w) later
                       = (seen ++ replicate (length later) dir, w)) as Hgen.
  { induction later as [|st later IH]; intros seen; simpl.
    - by rewrite app_nil_r.
    - rewrite (loadProfiles_again st dir w Hc). rewrite IH.
      by rewrite <- app_assoc. }
  apply (Hgen []).
Qed.

(** C10. After the first call of [loadProfiles] has completed, every later
    call, whatever the store would answer then, returns the same directory
    and leaves the module state as it is, so it issues no read.  The first
    call on an empty cache issues exactly one read, and when that read failed
    or gave no rows the directory is pinned empty: all later lookups give no
    profile, and names and phones are the fallback values. *)
Theorem loadProfiles_first_outcome_is_kept (first : DataStore) (later : list DataStore)
    (w : World) :
  let dir := fst (loadProfiles first w) in
  let w1 := snd (loadProfiles first w) in
  later_calls later w1 = (replicate (length later) dir, w1)
  /\ reads (snd (later_calls later w1)) = reads w1
  /\ (profilesCache w = None -> reads w1 = reads w ++ ["profiles"])
  /\ (profilesCache w = None -> nothing_loaded (from_profiles first) ->
      dir = ∅
      /\ forall userId,
           getProfile (snd (later_calls later w1)) userId = None
           /\ formatUserName userId (getProfile (snd (later_calls later w1)) userId)
              = "Usuario " +:+ substring0 8 userId
           /\ formatPhone (getProfile (snd (later_calls later w1)) userId) = "Sin teléfono").
Proof.
  intros dir w1.
  assert (later_calls later w1 = (replicate (length later) dir, w1)) as Hlater.
  { apply later_calls_fixed. apply loadProfiles_sets_cache. }
  rewrite Hlater. simpl. split; [done|]. split; [done|].
  assert (profilesCache w = None -> reads w1 = reads w ++ ["profiles"]) as Hreads.
  { intros Hc. subst w1. unfold loadProfiles. rewrite Hc.
    destruct (error (from_profiles first)); [done|].
    by destruct (data (from_profiles first)) as [[|]|]. }
  split; [exact Hreads|].
  intros Hc Hnothing.
  assert (dir = ∅) as Hdir.
  { subst dir. unfold loadProfiles. rewrite Hc.
    destruct (error (from_profiles first)) eqn:He; [done|].
    destruct Hnothing as [H|[H|H]]; [done| |]; by rewrite H. }
  split; [exact Hdir|].
  intros userId.
  assert (getProfile w1 userId = None) as Hget.
  { unfold getProfile. subst w1. rewrite loadProfiles_sets_cache.
    fold dir. rewrite Hdir. apply lookup_empty. }
  rewrite Hget. done.
Qed.

Lemma loadProfiles_first_outcome_is_kept_witness :
  let first := store_down in
  let later := [store_of (ok [Profile.mk "u1" (Some "Ana") (Some "555")]) [] [] [] []] in
  later_calls later (snd (loadProfiles first initial_world))
    = ([∅], snd (loadProfiles first initial_world))
  /\ formatUserName "0123456789abcdef"
       (getProfile (snd (later_calls later (snd (loadProfiles first initial_world))))
                   "0123456789abcdef")
     = "Usuario 01234567".
Proof.
  pose proof (loadProfiles_first_outcome_is_kept store_down
                [store_of (ok [Profile.mk "u1" (Some "Ana") (Some "555")]) [] [] [] []]
                initial_world) as H.
  simpl in H. destruct H as (H1 & _ & _ & H4).
  split; [exact H1|].
  destruct (H4 eq_refl) as [_ Hall]; [left; discriminate|].
  destruct (Hall "0123456789abcdef") as (_ & Hname & _). exact Hname.
Defined.

(** ** Failed reads (C1) *)

(** C1, as stated, fails: with every read failing, [getWeeklySchedule]
    returns the empty object and [getRetentionMetrics] returns a report of
    zeros; neither throws. *)
Lemma failed_read_answered_with_defaults :
  error (from_bookings store_down (weekly_request 0)) = Some "down"
  /\ getWeeklySchedule store_down 0 = Return []
  /\ error (from_bookings store_down all_rows) = Some "down"
  /\ error (from_credit_batches store_down all_rows) = Some "down"
  /\ getRetentionMetrics store_down initial_world 0
     = Return (Retention.mk 0 0 0 0 0 0 0 (Num 0) (Num 0)).
Proof. repeat split. Qed.

(** The packages read of [getTopBuyers] is not checked either: the buyers are
    ranked with every price 0 and every title unknown. *)
Example top_buyers_without_packages :
  let st := {| from_profiles := ok [];
               from_bookings := fun _ => ok [];
               from_credit_batches := fun _ =>
                 ok [CreditBatch.mk 1 "ana" 7 (Some 10) 10 1767225600000];
               from_packages := failed "down";
               from_sessions := ok [] |} in
  getTopBuyers st initial_world 2026 5
  = Return [Buyer.mk 1 (Buyer.mk_stats "ana" 1 0 10 ["Desconocido"])
              "Usuario ana" "Sin teléfono" "Desconocido"].
Proof. vm_compute. reflexivity. Qed.

(** C1, amended.  A failed read is thrown to the caller by
    [getDormantClients] and its paginated form (bookings, credit batches), by
    [getPackageSalesByMonth] and [getPackageSalesByDateRange] (credit
    batches, packages) and by [getTopBuyers], [getTopBuyersByDateRange] and
    [getUserPurchaseHistory] (credit batches).  [getWeeklySchedule] answers a
    failed bookings read with the empty object, and [getRetentionMetrics]
    always returns a report, in which a read without data counts as no
    rows. *)
Theorem failed_reads (st : DataStore) (w : World) (now : Z) (e : string) :
  (forall days,
     error (from_bookings st bookings_request_dormant) = Some e ->
     getDormantClients st w now days = Throw e
     /\ forall page pageSize, getDormantClientsPaginated st w now days page pageSize = Throw e)
  /\ (forall days,
        error (from_bookings st bookings_request_dormant) = None ->
        error (from_credit_batches st batches_request_dormant) = Some e ->
        getDormantClients st w now days = Throw e
        /\ forall page pageSize,
             getDormantClientsPaginated st w now days page pageSize = Throw e)
  /\ (forall year,
        error (from_credit_batches st (year_request year (Some ("created_at", true)))) = Some e ->
        getPackageSalesByMonth st year = Throw e)
  /\ (forall year,
        error (from_credit_batches st (year_request year (Some ("created_at", true)))) = None ->
        error (from_packages st) = Some e ->
        getPackageSalesByMonth st year = Throw e)
  /\ (forall s f,
        error (from_credit_batches st (range_request s f (Some ("created_at", true)))) = Some e ->
        getPackageSalesByDateRange st s f = Throw e)
  /\ (forall s f,
        error (from_credit_batches st (range_request s f (Some ("created_at", true)))) = None ->
        error (from_packages st) = Some e ->
        getPackageSalesByDateRange st s f = Throw e)
  /\ (forall year limit,
        error (from_credit_batches st (year_request year None)) = Some e ->
        getTopBuyers st w year limit = Throw e)
  /\ (forall s f limit,
        error (from_credit_batches st (range_request s f None)) = Some e ->
        getTopBuyersByDateRange st w s f limit = Throw e)
  /\ (forall userId,
        error (from_credit_batches st
                 {| filters := [f_eq "user_id" userId];
                    order := Some ("created_at", false) |}) = Some e ->
        getUserPurchaseHistory st userId = Throw e)
  /\ (error (from_bookings st (weekly_request now)) = Some e ->
      getWeeklySchedule st now = Return [])
  /\ (exists r, getRetentionMetrics st w now = Return r
       /\ (data (from_bookings st all_rows) = None ->
           Retention.total_unique_users r = 0
           /\ Retention.retention_rate r = Num 0
           /\ Retention.conversion_rate r = Num 0)).
Proof.
  repeat split.
  - unfold getDormantClients. by rewrite H.
  - intros. unfold getDormantClientsPaginated, getDormantClients. by rewrite H.
  - unfold getDormantClients. by rewrite H, H0.
  - intros. unfold getDormantClientsPaginated, getDormantClients. by rewrite H, H0.
  - intros year H. unfold getPackageSalesByMonth. by rewrite H.
  - intros year H H0. unfold getPackageSalesByMonth. by rewrite H, H0.
  - intros s f H. unfold getPackageSalesByDateRange. by rewrite H.
  - intros s f H H0. unfold getPackageSalesByDateRange. by rewrite H, H0.
  - intros year limit H. unfold getTopBuyers. by rewrite H.
  - intros s f limit H. unfold getTopBuyersByDateRange. by rewrite H.
  - intros userId H. unfold getUserPurchaseHistory. by rewrite H.
  - intros H. unfold getWeeklySchedule. by rewrite H.
  - eexists. split; [reflexivity|]. intros H. simpl.
    unfold rows. rewrite H. simpl. done.
Qed.

Lemma failed_reads_witness :
  getDormantClients store_down initial_world 0 30 = Throw "down"
  /\ getPackageSalesByMonth store_down 2026 = Throw "down"
  /\ getTopBuyers store_down initial_world 2026 5 = Throw "down"
  /\ getWeeklySchedule store_down 0 = Return [].
Proof.
  destruct (failed_reads store_down initial_world 0 "down")
    as (H1 & _ & H3 & _ & _ & _ & H7 & _ & _ & H10 & _).
  split; [apply (H1 30); reflexivity|].
  split; [apply (H3 2026); reflexivity|].
  split; [apply (H7 2026 5); reflexivity|].
  apply H10; reflexivity.
Defined.

(** ** Dormant clients (C5, C6) *)

Lemma latest_from_spec l o m :
  foldl later o l = Some m ->
  (o = Some m \/ m ∈ l) /\ Forall (fun d => d <= m) l
  /\ (forall x, o = Some x -> x <= m).
Proof.
  revert o. induction l as [|d l IH]; intros o H; simpl in *.
  - split; [by left|]. split; [constructor|]. intros x Hx. rewrite Hx in H. injection H. lia.
  - destruct (IH _ H) as (Hin & Hall & Hle).
    assert (forall x, later o d = Some x -> d <= x /\ forall y, o = Some y -> y <= x) as Hl.
    { intros x Hx. unfold later in Hx. destruct o as [y|]; injection Hx as <-.
      - split; [lia|]. intros ? [= <-]. lia.
      - split; [lia|]. intros ? [=]. }
    destruct (Hl _ eq_refl) as [Hd Ho]. specialize (Hle _ eq_refl).
    split.
    + destruct Hin as [Hin|Hin]; [|right; by right].
      unfold later in Hin. injection Hin as Hin. destruct o as [y|].
      * destruct (Z.max_spec y d) as [[_ Hm]|[_ Hm]]; rewrite Hm in Hin.
        -- right. subst. left.
        -- left. by subst.
      * right. subst. left.
    + split.
      * constructor; [|exact Hall].
        unfold later in Hle. destruct o; lia.
      * intros x Hx. subst o. unfold later in Hle. lia.
Qed.

Lemma latest_spec l m :
  latest l = Some m -> m ∈ l /\ Forall (fun d => d <= m) l.
Proof.
  intros H. destruct (latest_from_spec l None m H) as ([?|?] & ? & _); done.
Qed.

Lemma foldl_later_is_Some l o : is_Some o -> is_Some (foldl later o l).
Proof.
  revert o. induction l as [|x l IH]; intros o Ho; simpl; [done|].
  apply IH. by eexists.
Qed.

Lemma latest_is_Some l : l <> [] -> is_Some (latest l).
Proof.
  destruct l as [|d l]; [done|]. intros _. unfold latest. simpl.
  apply foldl_later_is_Some. by eexists.
Qed.

(** Both loop bodies record an event [(u, d)] the same way. *)
Lemma booking_activity_date acc b u :
  Dormant.date <$> Dict.get (booking_activity acc b) u
  = if decide (Booking.user_id b = u)
    then later (Dormant.date <$> Dict.get acc u) (bookingDate b)
    else Dormant.date <$> Dict.get acc u.
Proof.
  unfold booking_activity. fold (bookingDate b).
  destruct (decide (Booking.user_id b = u)) as [<-|Hne].
  - destruct (Dict.get acc (Booking.user_id b)) as [cur|] eqn:Hget; simpl.
    + unfold Dayjs.isAfter, later.
      destruct (Z.ltb_spec (Dormant.date cur) (bookingDate b)).
      * rewrite get_set_eq. simpl. f_equal. lia.
      * rewrite Hget. simpl. f_equal. lia.
    + by rewrite get_set_eq.
  - destruct (Dict.get acc (Booking.user_id b)) as [cur|] eqn:Hget.
    + destruct (Dayjs.isAfter _ _); [|done]. by rewrite get_set_ne.
    + by rewrite get_set_ne.
Qed.

Lemma purchase_activity_date acc c u :
  Dormant.date <$> Dict.get (purchase_activity acc c) u
  = if decide (CreditBatch.user_id c = u)
    then later (Dormant.date <$> Dict.get acc u) (CreditBatch.created_at c)
    else Dormant.date <$> Dict.get acc u.
Proof.
  unfold purchase_activity.
  destruct (decide (CreditBatch.user_id c = u)) as [<-|Hne].
  - destruct (Dict.get acc (CreditBatch.user_id c)) as [cur|] eqn:Hget; simpl.
    + unfold Dayjs.isAfter, later.
      destruct (Z.ltb_spec (Dormant.date cur) (CreditBatch.created_at c)).
      * rewrite get_set_eq. simpl. f_equal. lia.
      * rewrite Hget. simpl. f_equal. lia.
    + by rewrite get_set_eq.
  - destruct (Dict.get acc (CreditBatch.user_id c)) as [cur|] eqn:Hget.
    + destruct (Dayjs.isAfter _ _); [|done]. by rewrite get_set_ne.
    + by rewrite get_set_ne.
Qed.

Lemma bookings_activity_date bookings acc u :
  Dormant.date <$> Dict.get (foldl booking_activity acc bookings) u
  = foldl later (Dormant.date <$> Dict.get acc u)
      (map bookingDate (filter (fun b => Booking.user_id b = u) bookings)).
Proof.
  revert acc. induction bookings as [|b l IH]; intros acc; simpl; [done|].
  rewrite IH, booking_activity_date, filter_cons.
  by destruct (decide (Booking.user_id b = u)).
Qed.

Lemma purchases_activity_date batches acc u :
  Dormant.date <$> Dict.get (foldl purchase_activity acc batches) u
  = foldl later (Dormant.date <$> Dict.get acc u)
      (map CreditBatch.created_at (filter (fun c => CreditBatch.user_id c = u) batches)).
Proof.
  revert acc. induction batches as [|c l IH]; intros acc; simpl; [done|].
  rewrite IH, purchase_activity_date, filter_cons.
  by destruct (decide (CreditBatch.user_id c = u)).
Qed.

(** The merged activity of a user carries the latest of the user's dates. *)
Lemma userActivity_latest bookings batches u :
  Dormant.date <$> Dict.get (userActivity bookings batches) u
  = latest (activity_dates u bookings batches).
Proof.
  unfold userActivity, latest, activity_dates.
  rewrite purchases_activity_date, bookings_activity_date.
  by rewrite foldl_app.
Qed.

Lemma booking_activity_keys acc b :
  NoDup (map fst acc) -> NoDup (map fst (booking_activity acc b)).
Proof.
  intros H. unfold booking_activity.
  destruct (Dict.get acc _); [destruct (Dayjs.isAfter _ _)|]; auto using keys_set.
Qed.

Lemma purchase_activity_keys acc c :
  NoDup (map fst acc) -> NoDup (map fst (purchase_activity acc c)).
Proof.
  intros H. unfold purchase_activity.
  destruct (Dict.get acc _); [destruct (Dayjs.isAfter _ _)|]; auto using keys_set.
Qed.

Lemma userActivity_keys bookings batches : NoDup (map fst (userActivity bookings batches)).
Proof.
  unfold userActivity.
  assert (forall acc, NoDup (map fst acc) ->
                      NoDup (map fst (foldl booking_activity acc bookings))) as Hb.
  { induction bookings as [|b l IH]; intros acc H; simpl; [done|].
    by apply IH, booking_activity_keys. }
  assert (forall acc, NoDup (map fst acc) ->
                      NoDup (map fst (foldl purchase_activity acc batches))) as Hc.
  { induction batches as [|c l IH]; intros acc H; simpl; [done|].
    by apply IH, purchase_activity_keys. }
  apply Hc, Hb. constructor.
Qed.

(** With both reads answered, the report is returned, and the clients are
    the users whose merged date is before the cut-off. *)
Lemma getDormantClients_returns st w now days :
  error (from_bookings st bookings_request_dormant) = None ->
  error (from_credit_batches st batches_request_dormant) = None ->
  exists r, getDormantClients st w now days = Return r.
Proof. intros Hb Hc. unfold getDormantClients. rewrite Hb, Hc. by eexists. Qed.

Lemma dormant_clients_spec st w now days r c :
  getDormantClients st w now days = Return r ->
  c ∈ Dormant.clients r <->
  exists ua,
    ua ∈ userActivity (rows (from_bookings st bookings_request_dormant))
                      (rows (from_credit_batches st batches_request_dormant))
    /\ Dormant.date (snd ua) < Dayjs.subtract_days now days
    /\ c = dormant_entry w now ua.
Proof.
  unfold getDormantClients.
  destruct (error (from_bookings st _)); [done|].
  destruct (error (from_credit_batches st _)); [done|].
  intros [= <-]. simpl. rewrite elem_of_sort, list_elem_of_fmap.
  split.
  - intros (ua & -> & Hin). apply list_elem_of_filter in Hin as [Hbefore Hin].
    exists ua. split; [done|]. split; [|done].
    unfold Dayjs.isBefore in Hbefore. by apply Z.ltb_lt.
  - intros (ua & Hin & Hlt & ->). exists ua. split; [done|].
    apply list_elem_of_filter. split; [|done].
    unfold Dayjs.isBefore. by apply Z.ltb_lt.
Qed.

(** C5. A user whose latest activity is exactly [now - thresholdDays] is not
    in the list of [getDormantClients]; a user whose latest activity is one
    day before that cut-off is in it (once), with that date. *)
Theorem dormant_cutoff_is_strict st w now days r u :
  getDormantClients st w now days = Return r ->
  let dates := activity_dates u (rows (from_bookings st bookings_request_dormant))
                 (rows (from_credit_batches st batches_request_dormant)) in
  let cutoff := Dayjs.subtract_days now days in
  (latest dates = Some cutoff ->
   forall c, c ∈ Dormant.clients r -> Dormant.user_id c <> u)
  /\ (latest dates = Some (Dayjs.subtract_days cutoff 1) ->
      exists c, c ∈ Dormant.clients r
                /\ Dormant.user_id c = u
                /\ Dormant.last_activity c = Dayjs.subtract_days cutoff 1
                /\ forall c', c' ∈ Dormant.clients r -> Dormant.user_id c' = u -> c' = c).
Proof.
  intros Hr dates cutoff.
  pose proof (userActivity_keys (rows (from_bookings st bookings_request_dormant))
                (rows (from_credit_batches st batches_request_dormant))) as Hnd.
  pose proof (userActivity_latest (rows (from_bookings st bookings_request_dormant))
                (rows (from_credit_batches st batches_request_dormant)) u) as Hlatest.
  fold dates in Hlatest.
  split.
  - intros Hl c Hc Hu.
    apply (dormant_clients_spec _ _ _ _ _ _ Hr) in Hc as ([u' a] & Hin & Hlt & ->).
    simpl in *. subst u'.
    rewrite (elem_of_get _ _ _ Hnd Hin), Hl in Hlatest. simpl in Hlatest.
    injection Hlatest as Hd. fold cutoff in Hlt. lia.
  - intros Hl. rewrite Hl in Hlatest.
    destruct (Dict.get _ u) as [a|] eqn:Hget; [|done].
    simpl in Hlatest. injection Hlatest as Hd.
    exists (dormant_entry w now (u, a)).
    split; [|split; [done|split; [done|]]].
    + apply (dormant_clients_spec _ _ _ _ _ _ Hr). exists (u, a).
      split; [by apply get_Some_elem_of|]. split; [|done].
      simpl. rewrite Hd. unfold cutoff, Dayjs.subtract_days, Dayjs.ms_per_day. lia.
    + intros c' Hc' Hu.
      apply (dormant_clients_spec _ _ _ _ _ _ Hr) in Hc' as ([u' a'] & Hin & _ & ->).
      simpl in Hu. subst u'.
      rewrite (elem_of_get _ _ _ Hnd Hin) in Hget. by injection Hget as ->.
Qed.

Lemma dormant_cutoff_is_strict_witness :
  exists r, getDormantClients dormant_store initial_world 1772366400000 30 = Return r
  /\ (forall c, c ∈ Dormant.clients r -> Dormant.user_id c <> "at")
  /\ (exists c, c ∈ Dormant.clients r /\ Dormant.user_id c = "before").
Proof.
  eexists. split; [reflexivity|].
  split.
  - apply (dormant_cutoff_is_strict dormant_store initial_world 1772366400000 30 _ "at"
             eq_refl). reflexivity.
  - destruct (dormant_cutoff_is_strict dormant_store initial_world 1772366400000 30 _ "before"
                eq_refl) as [_ H].
    destruct H as (c & Hc & Hu & _); [reflexivity|]. by exists c.
Defined.

(** *** Pagination *)

Lemma Qceiling_ratio a p :
  Math_ceil (inject_Z a / inject_Z (Z.pos p)) = - ((- a) / Z.pos p).
Proof.
  unfold Math_ceil, Qceiling, Qfloor, Qdiv, Qinv, Qmult, Qopp, inject_Z. simpl.
  by rewrite Z.mul_1_r.
Qed.

Lemma slice_window {A} (l : list A) (i n : nat) :
  slice l (Z.of_nat i) (Z.of_nat i + Z.of_nat n) = take n (drop i l).
Proof.
  unfold slice, slice_index.
  rewrite !(proj2 (Z.ltb_ge _ 0)) by lia.
  destruct (decide (i <= length l)%nat) as [Hi|Hi].
  - rewrite (Z.min_l (Z.of_nat i)) by lia. rewrite Nat2Z.id.
    destruct (decide (i + n <= length l)%nat) as [Hn|Hn].
    + rewrite Z.min_l by lia. f_equal. lia.
    + rewrite Z.min_r by lia.
      rewrite !take_ge; [done| |]; rewrite length_drop; lia.
  - rewrite !Z.min_r by lia. rewrite Z.sub_diag. simpl.
    rewrite (drop_ge l i) by lia. by rewrite take_nil.
Qed.

Lemma windows_concat {A} (ps n : nat) (l : list A) :
  (length l <= n * ps)%nat ->
  concat (map (fun k => take ps (drop (k * ps) l)) (seq 0 n)) = l.
Proof.
  revert l. induction n as [|n IH]; intros l Hlen; simpl.
  - destruct l; [done|simpl in Hlen; lia].
  - rewrite <- seq_shift, map_map.
    transitivity (take ps l ++ drop ps l); [|apply take_drop].
    f_equal.
    rewrite <- (IH (drop ps l)) at 1 by (rewrite length_drop; lia).
    f_equal. apply map_ext. intros k. by rewrite drop_drop.
Qed.

(** C6. For a page size of at least 1, when [getDormantClients] returns a
    report, every page request returns too, with
    [totalPages = ceil(total / pageSize)], and the clients of the pages 1 to
    [totalPages], one after the other, are the clients of the report: same
    order, nothing twice, nothing left out. *)
Theorem pages_cover_dormant_clients st w now days pageSize r :
  1 <= pageSize ->
  getDormantClients st w now days = Return r ->
  exists totalPages : nat,
    Z.of_nat totalPages = Math_ceil (inject_Z (Dormant.total r) / inject_Z pageSize)
    /\ (forall page, exists pr,
          getDormantClientsPaginated st w now days page pageSize = Return pr
          /\ Dormant.result pr = r
          /\ Dormant.totalPages (Dormant.pages pr) = Some (Z.of_nat totalPages)
          /\ Dormant.page_clients pr
             = slice (Dormant.clients r) ((page - 1) * pageSize) ((page - 1) * pageSize + pageSize))
    /\ concat (map (clients_of_page st w now days pageSize) (seq 1 totalPages))
       = Dormant.clients r.
Proof.
  intros Hps Hr.
  assert (Dormant.total r = Z.of_nat (length (Dormant.clients r))) as Htotal.
  { unfold getDormantClients in Hr.
    destruct (error (from_bookings st _)); [done|].
    destruct (error (from_credit_batches st _)); [done|].
    by injection Hr as <-. }
  destruct pageSize as [|ps|ps]; [lia| |lia].
  set (T := Math_ceil (inject_Z (Dormant.total r) / inject_Z (Z.pos ps))).
  assert (0 <= T /\ Dormant.total r <= T * Z.pos ps) as [HT0 HT].
  { subst T. rewrite Qceiling_ratio. rewrite Htotal.
    pose proof (Z.div_mod (- Z.of_nat (length (Dormant.clients r))) (Z.pos ps)) as Hdm.
    pose proof (Z.mod_pos_bound (- Z.of_nat (length (Dormant.clients r))) (Z.pos ps)) as Hm.
    split; nia. }
  exists (Z.to_nat T). split; [lia|]. split.
  - intros page. unfold getDormantClientsPaginated. rewrite Hr.
    eexists. split; [reflexivity|]. simpl. split; [done|]. split; [|done].
    fold T. f_equal. lia.
  - transitivity (concat (map (fun k => take (Pos.to_nat ps)
                                           (drop (k * Pos.to_nat ps) (Dormant.clients r)))
                              (seq 0 (Z.to_nat T))));
      [|apply windows_concat; nia].
    rewrite <- seq_shift, map_map. f_equal. apply map_ext. intros k.
    unfold clients_of_page, getDormantClientsPaginated. rewrite Hr. simpl.
    replace ((Z.of_nat (S k) - 1) * Z.pos ps) with (Z.of_nat (k * Pos.to_nat ps)) by lia.
    replace (Z.pos ps) with (Z.of_nat (Pos.to_nat ps)) at 1 by lia.
    apply slice_window.
Qed.

Lemma pages_cover_dormant_clients_witness :
  exists r, getDormantClients three_dormant initial_world 1772366400000 30 = Return r
  /\ clients_of_page three_dormant initial_world 1772366400000 30 2 1
     ++ clients_of_page three_dormant initial_world 1772366400000 30 2 2
     = Dormant.clients r.
Proof.
  eexists. split; [reflexivity|].
  destruct (pages_cover_dormant_clients three_dormant initial_world 1772366400000 30 2 _
              ltac:(lia) eq_refl) as (n & Hn & _ & Hcat).
  assert (n = 2%nat) as -> by (apply Nat2Z.inj; rewrite Hn; reflexivity).
  cbn [seq map concat] in Hcat. rewrite app_nil_r in Hcat. exact Hcat.
Defined.

(** ** Top buyers (C4) *)

Lemma slice_descending {A} (key : A -> Z) (l : list A) (start stop : Z) :
  StronglySorted (descending key) l -> StronglySorted (descending key) (slice l start stop).
Proof. intros H. unfold slice. by apply descending_take, descending_drop. Qed.

Lemma rank_buyers_ranked w creditBatches packages limit :
  dense_ranks (rank_buyers w creditBatches packages limit)
  /\ spent_non_increasing (rank_buyers w creditBatches packages limit).
Proof.
  unfold rank_buyers.
  set (top := slice _ 0 limit).
  assert (StronglySorted (descending Buyer.total_spent) top) as Hsorted.
  { apply slice_descending. apply (sort_descending Buyer.total_spent). }
  set (entry := fun (index : nat) (buyer : Buyer.stats) => Buyer.mk _ _ _ _ _).
  split.
  - unfold dense_ranks. rewrite length_imap. apply list_eq. intros i.
    rewrite !list_lookup_fmap, list_lookup_imap.
    destruct (top !! i) as [b|] eqn:Hi; simpl.
    + apply lookup_lt_Some in Hi. rewrite lookup_seq_lt by done. simpl. f_equal. lia.
    + apply lookup_ge_None in Hi. by rewrite lookup_seq_ge.
  - intros i a b. rewrite !list_lookup_imap.
    destruct (top !! i) as [a'|] eqn:Ha; [|done].
    destruct (top !! S i) as [b'|] eqn:Hb; [|done].
    simpl. intros [= <-] [= <-]. simpl.
    exact (descending_adjacent Buyer.total_spent top i a' b' Hsorted Ha Hb).
Qed.

(** C4. Whatever the credit batches and the limit, the list returned by
    [getTopBuyers] and by [getTopBuyersByDateRange] has the ranks 1 to its
    length, in order, and [total_spent] never increases from one entry to
    the next. *)
Theorem top_buyers_ranked st w limit r :
  (exists year, getTopBuyers st w year limit = Return r)
  \/ (exists startDate endDate,
        getTopBuyersByDateRange st w startDate endDate limit = Return r) ->
  dense_ranks r /\ spent_non_increasing r.
Proof.
  intros [[year H]|(s & f & H)].
  - unfold getTopBuyers in H. destruct (error _); [done|].
    injection H as <-. apply rank_buyers_ranked.
  - unfold getTopBuyersByDateRange in H. destruct (error _); [done|].
    injection H as <-. apply rank_buyers_ranked.
Qed.

(** With the credit-batch read answered, both rankings return. *)
Lemma getTopBuyers_returns st w year limit :
  error (from_credit_batches st (year_request year None)) = None ->
  exists r, getTopBuyers st w year limit = Return r.
Proof. intros H. unfold getTopBuyers. rewrite H. by eexists. Qed.

Lemma getTopBuyersByDateRange_returns st w s f limit :
  error (from_credit_batches st (range_request s f None)) = None ->
  exists r, getTopBuyersByDateRange st w s f limit = Return r.
Proof. intros H. unfold getTopBuyersByDateRange. rewrite H. by eexists. Qed.

Lemma top_buyers_ranked_witness :
  exists r, getTopBuyers buyers_store initial_world 2026 3 = Return r
  /\ map Buyer.rank r = [1; 2; 3]
  /\ map (fun b => Buyer.total_spent (Buyer.buyer b)) r = [280; 100; 100]
  /\ dense_ranks r /\ spent_non_increasing r.
Proof.
  eexists. split; [reflexivity|]. split; [reflexivity|]. split; [reflexivity|].
  apply (top_buyers_ranked buyers_store initial_world 3).
  left. exists 2026. reflexivity.
Defined.

(** ** Package sales (C3) *)

Lemma sum_by_app {A} (f : A -> Z) l1 l2 : sum_by f (l1 ++ l2) = sum_by f l1 + sum_by f l2.
Proof. induction l1 as [|x l1 IH]; simpl; [done|]. rewrite IH. lia. Qed.

Lemma sum_by_perm {A} (f : A -> Z) l1 l2 : l1 ≡ₚ l2 -> sum_by f l1 = sum_by f l2.
Proof. induction 1; simpl; lia. Qed.

Section DictSums.
Context {K : Type} `{EqDecision K} {V : Type} (f : V -> Z).

Lemma sum_set_present (o : Dict.t K V) k v v0 :
  Dict.get o k = Some v0 ->
  sum_by f (map snd (Dict.set o k v)) = sum_by f (map snd o) - f v0 + f v.
Proof.
  intros H. destruct (set_present o k v v0 H) as (o1 & o2 & -> & ->).
  rewrite !map_app, !sum_by_app. simpl. lia.
Qed.

Lemma sum_set_absent (o : Dict.t K V) k v :
  Dict.get o k = None ->
  sum_by f (map snd (Dict.set o k v)) = sum_by f (map snd o) + f v.
Proof.
  intros H. rewrite keys_set_absent by done.
  rewrite map_app, sum_by_app. simpl. lia.
Qed.
End DictSums.






(** *** The yearly report is returned *)

Lemma month_in_year t : 0 <= Dayjs.month t <= 11.
Proof.
  unfold Dayjs.month, Dayjs.civil.
  set (z := Dayjs.day_number t + 719468).
  assert (0 <= z mod 146097 < 146097) as Hdoe by (apply Z.mod_pos_bound; lia).
  revert Hdoe. generalize (z mod 146097) as doe. intros doe Hdoe.
  assert (0 <= snd (fst (Dayjs.month_part doe)) <= 11) as Hmp.
  { unfold Dayjs.month_part. cbn [fst snd]. Z.to_euclidean_division_equations; lia. }
  destruct (Dayjs.month_part doe) as [[yoe mp] d]. cbn [fst snd] in *.
  destruct (Z.ltb_spec mp 10); lia.
Qed.

Lemma initial_months_all : all_months initial_months.
Proof.
  intros m Hm.
  assert (m = 1 \/ m = 2 \/ m = 3 \/ m = 4 \/ m = 5 \/ m = 6 \/ m = 7 \/ m = 8
          \/ m = 9 \/ m = 10 \/ m = 11 \/ m = 12) as H by lia.
  repeat (destruct H as [->|H]; [by eexists|]). subst. by eexists.
Qed.

Lemma all_months_set o k v : all_months o -> all_months (Dict.set o k v).
Proof.
  intros H m Hm. destruct (decide (k = Dayjs.num_string m)) as [->|Hne].
  - rewrite get_set_eq. by eexists.
  - rewrite get_set_ne by done. by apply H.
Qed.

Lemma forEach_month_returns pm batches a :
  all_months (Sales.salesByMonth a) ->
  exists a', forEach (month_step pm) batches a = Return a'.
Proof.
  revert a. induction batches as [|batch l IH]; intros a Ha; simpl; [by eexists|].
  unfold month_step.
  pose proof (month_in_year (CreditBatch.created_at batch)) as Hm.
  destruct (Ha (Dayjs.month (CreditBatch.created_at batch) + 1)) as [b Hb]; [lia|].
  rewrite Hb. apply IH. simpl. by apply all_months_set.
Qed.

Lemma getPackageSalesByMonth_returns st year :
  error (from_credit_batches st (year_request year (Some ("created_at", true)))) = None ->
  error (from_packages st) = None ->
  exists r, getPackageSalesByMonth st year = Return r.
Proof.
  intros Hb Hp. unfold getPackageSalesByMonth. rewrite Hb, Hp.
  destruct (forEach_month_returns (packageMap (from_packages st))
              (rows (from_credit_batches st (year_request year (Some ("created_at", true)))))
              (Sales.mk_loop initial_months [] 0 0)) as [a Ha].
  { apply initial_months_all. }
  rewrite Ha. by eexists.
Qed.

Lemma getPackageSalesByDateRange_returns st s f :
  error (from_credit_batches st (range_request s f (Some ("created_at", true)))) = None ->
  error (from_packages st) = None ->
  exists r, getPackageSalesByDateRange st s f = Return r.
Proof. intros Hb Hp. unfold getPackageSalesByDateRange. rewrite Hb, Hp. by eexists. Qed.


(** ** Retention metrics (C2) *)

Section SetFacts.
Implicit Types (l s : list string) (x : string).

Lemma foldl_add_spec l s :
  NoDup s ->
  NoDup (foldl JsSet.add s l) /\ forall x, x ∈ foldl JsSet.add s l <-> x ∈ s \/ x ∈ l.
Proof.
  revert s. induction l as [|y l IH]; intros s Hs; simpl.
  - split; [done|]. intros x. rewrite elem_of_nil. tauto.
  - assert (NoDup (JsSet.add s y) /\ forall x, x ∈ JsSet.add s y <-> x ∈ s \/ x = y)
      as [Hnd Hin].
    { unfold JsSet.add. case_bool_decide as Hy.
      - split; [done|]. intros x. split; [tauto|]. by intros [?| ->].
      - split.
        + apply NoDup_app. split; [done|]. split; [|apply NoDup_singleton].
          intros x Hx Hx'. apply list_elem_of_singleton in Hx' as ->. done.
        + intros x. rewrite elem_of_app, list_elem_of_singleton. tauto. }
    destruct (IH _ Hnd) as [Hnd' Hin']. split; [done|].
    intros x. rewrite Hin', Hin, elem_of_cons. tauto.
Qed.

Lemma NoDup_of_list l : NoDup (JsSet.of_list l).
Proof. apply foldl_add_spec. constructor. Qed.

Lemma elem_of_of_list l x : x ∈ JsSet.of_list l <-> x ∈ l.
Proof.
  unfold JsSet.of_list.
  destruct (foldl_add_spec l [] (NoDup_nil_2)) as [_ H].
  rewrite H, elem_of_nil. tauto.
Qed.



(** The size of [new Set(l)] is the number of distinct elements of [l]. *)
Lemma size_of_list l :
  JsSet.size (JsSet.of_list l) = Z.of_nat (size (list_to_set l : gset string)).
Proof.
  unfold JsSet.size. f_equal.
  rewrite <- (size_list_to_set (C := gset string) (JsSet.of_list l))
    by apply NoDup_of_list.
  f_equal. apply set_eq. intros x.
  rewrite !elem_of_list_to_set. apply elem_of_of_list.
Qed.
End SetFacts.


Lemma ratio_nonneg part total :
  0 <= part -> 0 < total -> (0 <= inject_Z part / inject_Z total * 100)%Q.
Proof.
  intros Hp Ht. apply Qmult_le_0_compat; [|done].
  apply Qle_shift_div_l; [by rewrite <- (Zlt_Qlt 0)|].
  rewrite Qmult_0_l. by rewrite <- (Zle_Qle 0).
Qed.

Lemma ratio_at_most_100 part total :
  part <= total -> 0 < total -> (inject_Z part / inject_Z total * 100 <= 100)%Q.
Proof.
  intros Hp Ht.
  apply (Qle_trans _ (1 * 100)); [|apply Qle_lteq; by right].
  apply Qmult_le_compat_r; [|done].
  apply Qle_shift_div_r; [by rewrite <- (Zlt_Qlt 0)|].
  rewrite Qmult_1_l. by rewrite <- Zle_Qle.
Qed.






(** ** Credits comparison (C8) *)

Lemma recurring_count l1 l2 :
  length (filter (fun u => JsSet.has (JsSet.of_list l2) u = true) (JsSet.of_list l1))
  = size ((list_to_set l1 : gset string) ∩ list_to_set l2).
Proof.
  rewrite <- (size_list_to_set (C := gset string)).
  - f_equal. apply set_eq. intros x.
    rewrite elem_of_list_to_set, list_elem_of_filter, elem_of_intersection.
    rewrite !elem_of_list_to_set, elem_of_of_list.
    unfold JsSet.has. rewrite bool_decide_eq_true, elem_of_of_list. tauto.
  - apply NoDup_filter, NoDup_of_list.
Qed.



(** ** Bookings without a number of attendees (C9) *)













(** ** Occupancy of the weekly slots (C7) *)

Lemma Forall_set {K V} `{EqDecision K} (P : K * V -> Prop) (o : Dict.t K V) k v :
  Forall P o -> P (k, v) -> Forall P (Dict.set o k v).
Proof.
  intros Ho Hkv. induction Ho as [|[k' v'] o Hx Ho IH]; simpl.
  - by repeat constructor.
  - destruct (decide (k = k')); constructor; done.
Qed.

Lemma slot_step_ok sm acc cls :
  Forall (slot_ok sm) acc -> Forall (slot_ok sm) (slot_step sm acc cls).
Proof.
  intros Hacc. unfold slot_step. fold (slot_key cls).
  apply Forall_set; [done|].
  destruct (Dict.get acc (slot_key cls)) as [c|] eqn:Hget.
  - apply get_Some_elem_of in Hget.
    rewrite Forall_forall in Hacc. destruct (Hacc _ Hget) as (Hd & Ht & Hm & Hc).
    repeat split; simpl in *; try done. lia.
  - repeat split; simpl; done.
Qed.

Lemma slot_step_keys sm acc cls :
  NoDup (map fst acc) -> NoDup (map fst (slot_step sm acc cls)).
Proof. intros H. unfold slot_step. by apply keys_set. Qed.

Lemma slot_step_counts sm acc cls k :
  classes_at (slot_step sm acc cls) k
  = classes_at acc k + (if decide (slot_key cls = k) then 1 else 0)
  /\ attendees_at (slot_step sm acc cls) k
     = attendees_at acc k + (if decide (slot_key cls = k) then Schedule.occ_attendees cls else 0).
Proof.
  unfold classes_at, attendees_at, slot_step. fold (slot_key cls).
  destruct (decide (slot_key cls = k)) as [<-|Hne].
  - rewrite get_set_eq. simpl.
    destruct (Dict.get acc (slot_key cls)); simpl; lia.
  - rewrite get_set_ne by done. lia.
Qed.

Lemma slots_fold sm l acc :
  Forall (slot_ok sm) acc -> NoDup (map fst acc) ->
  Forall (slot_ok sm) (foldl (slot_step sm) acc l)
  /\ NoDup (map fst (foldl (slot_step sm) acc l))
  /\ forall k,
       classes_at (foldl (slot_step sm) acc l) k
       = classes_at acc k + Z.of_nat (length (filter (fun c => slot_key c = k) l))
       /\ attendees_at (foldl (slot_step sm) acc l) k
          = attendees_at acc k
            + sum_by Schedule.occ_attendees (filter (fun c => slot_key c = k) l).
Proof.
  revert acc. induction l as [|cls l IH]; intros acc Hok Hnd; simpl.
  - split; [done|]. split; [done|]. intros k. lia.
  - destruct (IH _ (slot_step_ok sm acc cls Hok) (slot_step_keys sm acc cls Hnd))
      as (Hok' & Hnd' & Hcount).
    split; [done|]. split; [done|]. intros k.
    destruct (Hcount k) as [Hc Ha]. destruct (slot_step_counts sm acc cls k) as [Hc1 Ha1].
    rewrite Hc, Ha, Hc1, Ha1, filter_cons.
    destruct (decide (slot_key cls = k)); simpl; lia.
Qed.


Lemma average_fields s :
  Schedule.day (average s) = Schedule.day s
  /\ Schedule.time (average s) = Schedule.time s
  /\ Schedule.max_capacity (average s) = Schedule.max_capacity s
  /\ Schedule.total_classes (average s) = Schedule.total_classes s
  /\ Schedule.total_attendees (average s) = Schedule.total_attendees s.
Proof. unfold average. by destruct (0 <? Schedule.total_classes s). Qed.




(** * Further properties *)

(** ** Dormant clients *)

Lemma sublist_fst_filter {K V} (P : K * V -> Prop) `{!forall x, Decision (P x)}
    (l : list (K * V)) :
  NoDup (map fst l) -> NoDup (map fst (filter P l)).
Proof.
  intros Hnd. apply (sublist_NoDup _ (map fst l) Hnd).
  apply (fmap_sublist fst), sublist_filter.
Qed.

Lemma dormant_clients_list st w now days r :
  getDormantClients st w now days = Return r ->
  Dormant.clients r
  = sort (by_key_desc Dormant.days_inactive)
      (map (dormant_entry w now)
         (filter (fun ua => Dayjs.isBefore (Dormant.date (snd ua))
                              (Dayjs.subtract_days now days) = true)
            (userActivity (rows (from_bookings st bookings_request_dormant))
               (rows (from_credit_batches st batches_request_dormant)))))
  /\ Dormant.total r = Z.of_nat (length (Dormant.clients r))
  /\ Dormant.cutoff_days r = days.
Proof.
  unfold getDormantClients.
  destruct (error (from_bookings st _)); [done|].
  destruct (error (from_credit_batches st _)); [done|].
  by intros [= <-].
Qed.

(** The users [getDormantClients] lists are exactly those whose latest
    booking or purchase is before the cut-off, each of them once; a user
    with no booking and no purchase is never listed.  Each entry carries
    the latest date of its user and the whole days from it to now. *)
Theorem dormant_clients_characterised st w now days r :
  getDormantClients st w now days = Return r ->
  let bookings := rows (from_bookings st bookings_request_dormant) in
  let batches := rows (from_credit_batches st batches_request_dormant) in
  NoDup (map Dormant.user_id (Dormant.clients r))
  /\ (forall u, u ∈ map Dormant.user_id (Dormant.clients r) <->
                exists d, latest (activity_dates u bookings batches) = Some d
                          /\ d < Dayjs.subtract_days now days)
  /\ (forall c, c ∈ Dormant.clients r ->
        latest (activity_dates (Dormant.user_id c) bookings batches)
        = Some (Dormant.last_activity c)
        /\ Dormant.days_inactive c = Dayjs.diff_days now (Dormant.last_activity c)).
Proof.
  intros Hr bookings batches.
  pose proof (userActivity_keys bookings batches) as Hnd.
  destruct (dormant_clients_list _ _ _ _ _ Hr) as (Hlist & _ & _).
  fold bookings batches in Hlist.
  assert (forall c, c ∈ Dormant.clients r ->
            exists a, Dict.get (userActivity bookings batches) (Dormant.user_id c) = Some a
                      /\ Dormant.date a < Dayjs.subtract_days now days
                      /\ c = dormant_entry w now (Dormant.user_id c, a)) as Hin.
  { intros c Hc. apply (dormant_clients_spec _ _ _ _ _ _ Hr) in Hc as ([u a] & Hua & Hlt & ->).
    exists a. simpl. split; [by apply elem_of_get|]. done. }
  split; [|split].
  - rewrite Hlist, (sort_perm _ _), map_map. simpl.
    by apply (sublist_fst_filter _ (userActivity bookings batches)).
  - intros u. rewrite <- (userActivity_latest bookings batches u). split.
    + intros Hu. apply list_elem_of_fmap in Hu as (c & -> & Hc).
      destruct (Hin c Hc) as (a & Hget & Hlt & _).
      exists (Dormant.date a). by rewrite Hget.
    + intros (d & Hd & Hlt).
      destruct (Dict.get (userActivity bookings batches) u) as [a|] eqn:Hget; [|done].
      injection Hd as <-. apply list_elem_of_fmap.
      exists (dormant_entry w now (u, a)). split; [done|].
      apply (dormant_clients_spec _ _ _ _ _ _ Hr). exists (u, a).
      split; [by apply get_Some_elem_of|]. done.
  - intros c Hc.
    apply (dormant_clients_spec _ _ _ _ _ _ Hr) in Hc as ([u a] & Hua & _ & ->).
    cbn [dormant_entry Dormant.user_id Dormant.last_activity Dormant.days_inactive fst snd].
    rewrite <- (userActivity_latest bookings batches).
    by rewrite (elem_of_get _ _ _ Hnd Hua).
Qed.

Lemma dormant_clients_characterised_witness :
  exists r, getDormantClients dormant_store initial_world 1772366400000 30 = Return r
  /\ NoDup (map Dormant.user_id (Dormant.clients r))
  /\ "before" ∈ map Dormant.user_id (Dormant.clients r).
Proof.
  eexists. split; [reflexivity|].
  destruct (dormant_clients_characterised dormant_store initial_world 1772366400000 30 _
              eq_refl) as (Hnd & Hiff & _).
  split; [exact Hnd|].
  apply Hiff. exists 1769688000000. split; [reflexivity|]. reflexivity.
Defined.

(** The list of [getDormantClients] is ordered by [days_inactive], longest
    first, [total] is its length, and every client in it has been inactive
    for at least [cutoff_days] whole days. *)
Theorem dormant_clients_longest_first st w now days r :
  getDormantClients st w now days = Return r ->
  Dormant.total r = Z.of_nat (length (Dormant.clients r))
  /\ (forall i a b, Dormant.clients r !! i = Some a -> Dormant.clients r !! S i = Some b ->
                    Dormant.days_inactive b <= Dormant.days_inactive a)
  /\ (forall c, c ∈ Dormant.clients r -> Dormant.cutoff_days r <= Dormant.days_inactive c).
Proof.
  intros Hr. destruct (dormant_clients_list _ _ _ _ _ Hr) as (Hlist & Htotal & Hcut).
  split; [done|]. split.
  - intros i a b. rewrite Hlist.
    apply (descending_adjacent Dormant.days_inactive), sort_descending.
  - intros c Hc.
    apply (dormant_clients_spec _ _ _ _ _ _ Hr) in Hc as ([u a] & _ & Hlt & ->).
    rewrite Hcut. simpl in *. unfold Dayjs.diff_days, Dayjs.subtract_days in *.
    set (x := now - Dormant.date a) in *.
    assert (days * Dayjs.ms_per_day < x) as Hx by (unfold x; lia).
    clearbody x. clear Hlt Hlist. unfold Dayjs.ms_per_day in *.
    pose proof (Z.quot_rem' x 86400000) as Hqr.
    destruct (Z.le_gt_cases 0 x) as [Hpos|Hneg].
    + pose proof (Z.rem_bound_pos x 86400000 Hpos ltac:(lia)) as Hrem. lia.
    + pose proof (Z.rem_bound_pos_neg x 86400000 ltac:(lia) ltac:(lia)) as Hrem. lia.
Qed.

Lemma dormant_clients_longest_first_witness :
  exists r, getDormantClients three_dormant initial_world 1772366400000 30 = Return r
  /\ Dormant.total r = 3
  /\ map Dormant.days_inactive (Dormant.clients r) = [20513; 20512; 20511]
  /\ (forall c, c ∈ Dormant.clients r -> 30 <= Dormant.days_inactive c).
Proof.
  eexists. split; [reflexivity|]. split; [reflexivity|]. split; [reflexivity|].
  apply (dormant_clients_longest_first three_dormant initial_world 1772366400000 30 _ eq_refl).
Defined.

Lemma filter_length_mono {A} (P Q : A -> Prop) `{!forall x, Decision (P x)}
    `{!forall x, Decision (Q x)} (l : list A) :
  (forall x, P x -> Q x) -> (length (filter P l) <= length (filter Q l))%nat.
Proof.
  intros HPQ. induction l as [|x l IH]; [done|].
  rewrite !filter_cons. destruct (decide (P x)) as [HP|HP].
  - rewrite decide_True by auto. simpl. lia.
  - destruct (decide (Q x)); simpl; lia.
Qed.

(** A longer threshold lists fewer clients: with the same answers of the
    store and the same instant, every client listed for [days2] is listed,
    with the same entry, for any [days1 <= days2], and the totals are
    ordered the other way (as the 30, 60 and 90 day counts of the dashboard
    are). *)
Theorem dormant_clients_shrink st w now days1 days2 r1 r2 :
  days1 <= days2 ->
  getDormantClients st w now days1 = Return r1 ->
  getDormantClients st w now days2 = Return r2 ->
  (forall c, c ∈ Dormant.clients r2 -> c ∈ Dormant.clients r1)
  /\ Dormant.total r2 <= Dormant.total r1.
Proof.
  intros Hle H1 H2.
  assert (Dayjs.subtract_days now days2 <= Dayjs.subtract_days now days1) as Hcut.
  { unfold Dayjs.subtract_days, Dayjs.ms_per_day. lia. }
  split.
  - intros c Hc. apply (dormant_clients_spec _ _ _ _ _ _ H2) in Hc as (ua & Hin & Hlt & ->).
    apply (dormant_clients_spec _ _ _ _ _ _ H1). exists ua. split; [done|]. split; [lia|done].
  - destruct (dormant_clients_list _ _ _ _ _ H1) as (L1 & T1 & _).
    destruct (dormant_clients_list _ _ _ _ _ H2) as (L2 & T2 & _).
    rewrite T1, T2, L1, L2, !sort_length, !length_map. apply inj_le.
    apply filter_length_mono. intros ua. unfold Dayjs.isBefore.
    rewrite !Z.ltb_lt. lia.
Qed.

Lemma dormant_clients_shrink_witness :
  exists r1 r2,
    getDormantClients dormant_store initial_world 1772366400000 30 = Return r1
    /\ getDormantClients dormant_store initial_world 1772366400000 60 = Return r2
    /\ Dormant.total r1 = 1 /\ Dormant.total r2 = 0
    /\ Dormant.total r2 <= Dormant.total r1.
Proof.
  eexists. eexists. split; [reflexivity|]. split; [reflexivity|].
  split; [reflexivity|]. split; [reflexivity|].
  apply (dormant_clients_shrink dormant_store initial_world 1772366400000 30 60 _ _
           ltac:(lia) eq_refl eq_refl).
Defined.

(** A page of [getDormantClientsPaginated], for a page number from 1 and a
    page size from 1: it holds at most [pageSize] clients, exactly
    [pageSize] when the page ends within the list, and none when the page
    number is beyond [totalPages]; [totalItems] is the total of the full
    list, whatever the page. *)
Theorem dormant_page_size st w now days page pageSize pr :
  1 <= page -> 1 <= pageSize ->
  getDormantClientsPaginated st w now days page pageSize = Return pr ->
  Dormant.totalItems (Dormant.pages pr) = Dormant.total (Dormant.result pr)
  /\ Z.of_nat (length (Dormant.page_clients pr)) <= pageSize
  /\ (page * pageSize <= Dormant.total (Dormant.result pr) ->
      Z.of_nat (length (Dormant.page_clients pr)) = pageSize)
  /\ (forall totalPages,
        Dormant.totalPages (Dormant.pages pr) = Some totalPages ->
        totalPages < page -> Dormant.page_clients pr = []).
Proof.
  intros Hpage Hps. unfold getDormantClientsPaginated.
  destruct (getDormantClients st w now days) as [e|r] eqn:Hr; [done|].
  intros [= <-]. simpl.
  destruct (dormant_clients_list _ _ _ _ _ Hr) as (_ & Htotal & _).
  assert (slice (Dormant.clients r) ((page - 1) * pageSize) ((page - 1) * pageSize + pageSize)
          = take (Z.to_nat pageSize)
              (drop (Z.to_nat ((page - 1) * pageSize)) (Dormant.clients r))) as ->.
  { rewrite <- slice_window. f_equal; nia. }
  rewrite length_take, length_drop.
  split; [done|]. split; [lia|]. split; [nia|].
  intros T HT Hlt. destruct pageSize as [|ps|ps]; [lia| |lia].
  simpl in HT. injection HT as <-. rewrite Qceiling_ratio in Hlt.
  rewrite drop_ge; [by rewrite take_nil|].
  pose proof (Z.div_mod (- Dormant.total r) (Z.pos ps) ltac:(lia)) as Hdm.
  pose proof (Z.mod_pos_bound (- Dormant.total r) (Z.pos ps) ltac:(lia)) as Hm.
  nia.
Qed.

Lemma dormant_page_size_witness :
  exists pr,
    getDormantClientsPaginated three_dormant initial_world 1772366400000 30 2 2 = Return pr
    /\ Dormant.totalItems (Dormant.pages pr) = 3
    /\ length (Dormant.page_clients pr) = 1%nat
    /\ Z.of_nat (length (Dormant.page_clients pr)) <= 2.
Proof.
  eexists. split; [reflexivity|]. split; [reflexivity|]. split; [reflexivity|].
  apply (dormant_page_size three_dormant initial_world 1772366400000 30 2 2 _
           ltac:(lia) ltac:(lia) eq_refl).
Defined.

(** ** Package sales *)




Lemma sum_by_cons {A} (f : A -> Z) x l : sum_by f (x :: l) = f x + sum_by f l.
Proof. done. Qed.






(** *** The twelve buckets of the yearly report *)












(** *** Order of the buckets and of the package types *)

Section SortTotal.
Context {A : Type} (cmp : A -> A -> Z).
Hypothesis cmp_total : forall a b, 0 < cmp a b -> cmp b a <= 0.
Hypothesis cmp_trans : forall a b c, cmp a b <= 0 -> cmp b c <= 0 -> cmp a c <= 0.

Lemma insert_sorted_ordered x l :
  StronglySorted (fun a b => cmp a b <= 0) l ->
  StronglySorted (fun a b => cmp a b <= 0) (insert_sorted cmp x l).
Proof.
  induction 1 as [|y l Hl IH Hy]; simpl.
  - repeat constructor.
  - destruct (Z.leb_spec (cmp x y) 0) as [Hle|Hgt].
    + constructor; [by constructor|].
      constructor; [done|]. eapply Forall_impl; [exact Hy|].
      intros z Hz. simpl in Hz. eauto.
    + constructor; [exact IH|].
      rewrite insert_sorted_perm. constructor; [auto|exact Hy].
Qed.

Lemma sort_ordered l : StronglySorted (fun a b => cmp a b <= 0) (sort cmp l).
Proof.
  induction l as [|x l IH]; simpl; [constructor|]. by apply insert_sorted_ordered.
Qed.
End SortTotal.

Lemma sorted_adjacent {A} (R : A -> A -> Prop) l i a b :
  StronglySorted R l -> l !! i = Some a -> l !! S i = Some b -> R a b.
Proof.
  intros H. revert i. induction H as [|x l Hl IH Hx]; intros i Ha Hb; [done|].
  destruct i as [|i]; simpl in *.
  - injection Ha as <-. rewrite Forall_forall in Hx.
    apply Hx. eapply list_elem_of_lookup_2. exact Hb.
  - eauto.
Qed.

Lemma chronological_spec a b : chronological a b <= 0 <-> chronological_le a b.
Proof.
  unfold chronological, chronological_le.
  destruct (Z.eqb_spec (RangeBucket.year a) (RangeBucket.year b)); simpl; lia.
Qed.

Lemma range_step_buckets pm a batch :
  Forall (fun e => 1 <= RangeBucket.count (snd e) /\ RangeBucket.month (snd e) ∈ months)
         (Sales.salesByMonth a) ->
  Forall (fun e => 1 <= RangeBucket.count (snd e) /\ RangeBucket.month (snd e) ∈ months)
         (Sales.salesByMonth (range_step pm a batch)).
Proof.
  intros Ha. unfold range_step. cbn [Sales.salesByMonth].
  apply Forall_set; [done|]. cbn [snd RangeBucket.count RangeBucket.month].
  destruct (Dict.get (Sales.salesByMonth a) _) as [b|] eqn:Hget.
  - apply get_Some_elem_of in Hget. rewrite Forall_forall in Ha.
    destruct (Ha _ Hget) as [Hc Hm]. simpl in *. split; [lia|done].
  - cbn [RangeBucket.count RangeBucket.month]. split; [lia|].
    pose proof (month_in_year (CreditBatch.created_at batch)) as Hm.
    apply list_elem_of_In, nth_In. simpl. lia.
Qed.

(** The month buckets of the range report are in chronological order, by
    year and then by month, and none of them is empty: each has a month of
    the calendar and at least one sale.  Without batches there is no
    bucket. *)
Theorem range_report_chronological st s f r :
  getPackageSalesByDateRange st s f = Return r ->
  (forall i a b, Sales.by_month r !! i = Some a -> Sales.by_month r !! S i = Some b ->
                 chronological_le a b)
  /\ (forall b, b ∈ Sales.by_month r ->
                1 <= RangeBucket.count b /\ RangeBucket.month b ∈ months)
  /\ (rows (from_credit_batches st (range_request s f (Some ("created_at", true)))) = [] ->
      Sales.by_month r = [] /\ Sales.by_package_type r = []).
Proof.
  unfold getPackageSalesByDateRange.
  destruct (error (from_credit_batches st _)); [done|].
  destruct (error (from_packages st)); [done|].
  intros [= <-]. cbn [Sales.by_month Sales.by_package_type].
  split; [|split].
  - intros i a b Ha Hb. apply chronological_spec.
    revert Ha Hb. apply (sorted_adjacent (fun x y => chronological x y <= 0)).
    apply sort_ordered.
    + intros x y. rewrite !chronological_spec. unfold chronological, chronological_le.
      destruct (Z.eqb_spec (RangeBucket.year x) (RangeBucket.year y)); simpl; lia.
    + intros x y z. rewrite !chronological_spec. unfold chronological_le. lia.
  - intros b Hb. apply elem_of_sort in Hb. rewrite (values_perm _) in Hb.
    apply list_elem_of_fmap in Hb as (e & -> & He).
    assert (Forall (fun e => 1 <= RangeBucket.count (snd e)
                             /\ RangeBucket.month (snd e) ∈ months)
              (Sales.salesByMonth
                 (foldl (range_step (packageMap (from_packages st)))
                    (Sales.mk_loop [] [] 0 0)
                    (rows (from_credit_batches st
                             (range_request s f (Some ("created_at", true)))))))) as Hall.
    { generalize (rows (from_credit_batches st
                          (range_request s f (Some ("created_at", true))))) as l.
      assert (Forall (fun e : string * RangeBucket.t =>
                        1 <= RangeBucket.count (snd e)
                        /\ RangeBucket.month (snd e) ∈ months)
                (Sales.salesByMonth (Sales.mk_loop (B := RangeBucket.t) [] [] 0 0)))
        as H0 by constructor.
      revert H0. generalize (Sales.mk_loop (B := RangeBucket.t) [] [] 0 0) as a.
      intros a H0 l. revert a H0. induction l as [|batch l IH]; intros a H0; simpl; [done|].
      by apply IH, range_step_buckets. }
    rewrite Forall_forall in Hall. by apply Hall.
  - by intros ->.
Qed.

(** Batches of March 2026, of January 2026 and of December 2025, read in
    that order. *)
Lemma range_report_chronological_witness :
  let st := store_of (ok []) []
              [CreditBatch.mk 1 "ana" 1 (Some 10) 0 1772366400000;
               CreditBatch.mk 2 "bea" 1 (Some 10) 0 1767225600000;
               CreditBatch.mk 3 "ana" 1 (Some 10) 0 1767225599999]
              [Package.mk 1 (Some "10-class") (Some 100) (Some 10)] [] in
  exists r, getPackageSalesByDateRange st "2025-12-01" "2026-03-31" = Return r
  /\ map (fun b => (RangeBucket.year b, RangeBucket.month b)) (Sales.by_month r)
     = [(2025, "Diciembre"); (2026, "Enero"); (2026, "Marzo")]
  /\ forall b, b ∈ Sales.by_month r -> 1 <= RangeBucket.count b.
Proof.
  intros st.
  destruct (getPackageSalesByDateRange st "2025-12-01" "2026-03-31") as [e|r] eqn:E;
    [by vm_compute in E|].
  destruct (range_report_chronological st _ _ r E) as (_ & Hne & _).
  exists r. split; [done|]. split; [|intros b Hb; by apply Hne].
  vm_compute in E. by injection E as <-.
Defined.

Lemma add_package_type_ranked o pkg batch :
  NoDup (map fst o) /\ Forall (fun e => 1 <= TypeStat.count (snd e)) o ->
  NoDup (map fst (add_package_type o pkg batch))
  /\ Forall (fun e => 1 <= TypeStat.count (snd e)) (add_package_type o pkg batch).
Proof.
  intros [Hnd Hall]. unfold add_package_type. split; [by apply keys_set|].
  apply Forall_set; [done|]. cbn [snd TypeStat.count].
  destruct (Dict.get o _) as [c|] eqn:Hget; [|simpl; lia].
  apply get_Some_elem_of in Hget. rewrite Forall_forall in Hall.
  specialize (Hall _ Hget). simpl in Hall. lia.
Qed.

Lemma types_after_ranked pm l o :
  NoDup (map fst o) /\ Forall (fun e => 1 <= TypeStat.count (snd e)) o ->
  NoDup (map fst (types_after pm o l))
  /\ Forall (fun e => 1 <= TypeStat.count (snd e)) (types_after pm o l).
Proof.
  revert o. induction l as [|batch l IH]; intros o Ho; simpl; [done|].
  by apply IH, add_package_type_ranked.
Qed.

Lemma forEach_month_types pm l a a' :
  forEach (month_step pm) l a = Return a' ->
  Sales.salesByPackageType a' = types_after pm (Sales.salesByPackageType a) l.
Proof.
  revert a. induction l as [|batch l IH]; intros a; simpl.
  - by intros [= <-].
  - destruct (month_step pm a batch) as [e|a1] eqn:Hstep; [done|].
    intros H. rewrite (IH a1 H). unfold month_step in Hstep.
    destruct (Dict.get (Sales.salesByMonth a) _); [|done]. by injection Hstep as <-.
Qed.

Lemma foldl_range_types pm l a :
  Sales.salesByPackageType (foldl (range_step pm) a l)
  = types_after pm (Sales.salesByPackageType a) l.
Proof.
  revert a. induction l as [|batch l IH]; intros a; simpl; [done|]. by rewrite IH.
Qed.

Lemma package_types_ranked o :
  NoDup (map fst o) /\ Forall (fun e => 1 <= TypeStat.count (snd e)) o ->
  types_ranked (package_types o).
Proof.
  intros [Hnd Hall]. unfold types_ranked, package_types. split; [|split].
  - intros i a b.
    apply (descending_adjacent (fun t => TypeStat.count (TypeStat.stat t))).
    apply (sort_descending (fun t => TypeStat.count (TypeStat.stat t))).
  - rewrite (sort_perm _ _), map_map. simpl.
    by rewrite (fmap_Permutation fst _ _ (entries_perm o)).
  - intros t Ht. apply elem_of_sort, list_elem_of_fmap in Ht as (e & -> & He).
    rewrite (entries_perm o) in He. rewrite Forall_forall in Hall. by apply Hall.
Qed.

(** In both sales reports [by_package_type] is ordered by count, most sold
    first, names no package type twice and holds only types with at least
    one sale. *)
Theorem package_types_most_sold_first st :
  (forall year r, getPackageSalesByMonth st year = Return r ->
                  types_ranked (Sales.by_package_type r))
  /\ (forall s f r, getPackageSalesByDateRange st s f = Return r ->
                    types_ranked (Sales.by_package_type r)).
Proof.
  split.
  - intros year r. unfold getPackageSalesByMonth.
    destruct (error (from_credit_batches st _)); [done|].
    destruct (error (from_packages st)); [done|].
    destruct (forEach _ _ _) as [e|a] eqn:Hloop; [done|].
    intros [= <-]. cbn [Sales.by_package_type].
    rewrite (forEach_month_types _ _ _ _ Hloop).
    apply package_types_ranked, types_after_ranked. split; constructor.
  - intros s f r. unfold getPackageSalesByDateRange.
    destruct (error (from_credit_batches st _)); [done|].
    destruct (error (from_packages st)); [done|].
    intros [= <-]. cbn [Sales.by_package_type].
    rewrite foldl_range_types.
    apply package_types_ranked, types_after_ranked. split; constructor.
Qed.

Lemma package_types_most_sold_first_witness :
  exists r, getPackageSalesByMonth sales_store 2026 = Return r
  /\ map TypeStat.name (Sales.by_package_type r) = ["10-class"; "Paquete Desconocido"]
  /\ types_ranked (Sales.by_package_type r).
Proof.
  destruct (package_types_most_sold_first sales_store) as [Hm _].
  destruct (getPackageSalesByMonth sales_store 2026) as [e|r] eqn:E; [by vm_compute in E|].
  pose proof (Hm 2026 r E) as Hranked.
  exists r. split; [done|]. split; [|exact Hranked].
  vm_compute in E. by injection E as <-.
Defined.

(** ** Top buyers *)

Lemma buyer_plus_app pm s l1 l2 :
  buyer_plus pm (buyer_plus pm s l1) l2 = buyer_plus pm s (l1 ++ l2).
Proof.
  unfold buyer_plus. simpl.
  rewrite length_app, !sum_by_app, map_app, <- app_assoc. f_equal; lia.
Qed.

Lemma buyer_step_get pm o batch u :
  Dict.get (buyer_step pm o batch) u
  = if decide (CreditBatch.user_id batch = u)
    then Some (buyer_plus pm (default (Buyer.mk_stats u 0 0 0 []) (Dict.get o u)) [batch])
    else Dict.get o u.
Proof.
  unfold buyer_step.
  fold (batch_price pm batch) (batch_credits batch) (buyer_title pm batch).
  destruct (decide (CreditBatch.user_id batch = u)) as [<-|Hne].
  - rewrite get_set_eq. f_equal.
    destruct (Dict.get o (CreditBatch.user_id batch)) as [c|]; unfold buyer_plus; simpl;
      f_equal; lia.
  - by rewrite get_set_ne.
Qed.

Lemma buyer_step_inv pm o batch :
  NoDup (map fst o) /\ Forall (fun e => Buyer.user_id (snd e) = fst e) o ->
  NoDup (map fst (buyer_step pm o batch))
  /\ Forall (fun e => Buyer.user_id (snd e) = fst e) (buyer_step pm o batch).
Proof.
  intros [Hnd Hall]. unfold buyer_step. split; [by apply keys_set|].
  apply Forall_set; [done|]. cbn [fst snd Buyer.user_id].
  destruct (Dict.get o _) as [c|] eqn:Hget; [|done].
  apply get_Some_elem_of in Hget. rewrite Forall_forall in Hall. by apply (Hall _ Hget).
Qed.

Lemma userStats_spec pm l o :
  NoDup (map fst o) /\ Forall (fun e => Buyer.user_id (snd e) = fst e) o ->
  (NoDup (map fst (foldl (buyer_step pm) o l))
   /\ Forall (fun e => Buyer.user_id (snd e) = fst e) (foldl (buyer_step pm) o l))
  /\ forall u,
       Dict.get (foldl (buyer_step pm) o l) u
       = match purchases_of u l with
         | [] => Dict.get o u
         | mine => Some (buyer_plus pm (default (Buyer.mk_stats u 0 0 0 []) (Dict.get o u)) mine)
         end.
Proof.
  revert o. induction l as [|batch l IH]; intros o Ho; simpl.
  - split; [done|]. intros u. done.
  - destruct (IH _ (buyer_step_inv pm o batch Ho)) as [Hinv Hget].
    split; [done|]. intros u. rewrite Hget, buyer_step_get.
    unfold purchases_of. rewrite filter_cons.
    destruct (decide (CreditBatch.user_id batch = u)) as [Hu|Hu].
    + simpl. fold (purchases_of u l).
      destruct (purchases_of u l) as [|b' mine]; [done|].
      by rewrite buyer_plus_app.
    + done.
Qed.

Lemma slice_prefix {A} (l : list A) (limit : Z) :
  0 <= limit -> slice l 0 limit = take (Z.to_nat limit) l.
Proof.
  intros H. change 0 with (Z.of_nat 0) at 1.
  replace limit with (Z.of_nat 0 + Z.of_nat (Z.to_nat limit)) at 1 by lia.
  by rewrite slice_window.
Qed.

Lemma slice_sublist {A} (l : list A) (start stop : Z) : slice l start stop `sublist_of` l.
Proof.
  unfold slice. etransitivity; [apply sublist_take|apply sublist_drop].
Qed.

Lemma rank_buyers_users w batches packages limit :
  map Buyer.buyer (rank_buyers w batches packages limit)
  = slice (sort (by_key_desc Buyer.total_spent)
             (Dict.values (foldl (buyer_step (packageMap packages)) [] batches)))
          0 limit.
Proof.
  unfold rank_buyers. apply list_eq. intros i.
  rewrite list_lookup_fmap, list_lookup_imap.
  by destruct (slice _ 0 limit !! i).
Qed.

Lemma rank_buyers_entry w batches packages limit b :
  b ∈ rank_buyers w batches packages limit ->
  let u := Buyer.user_id (Buyer.buyer b) in
  Buyer.full_name b = formatUserName u (getProfile w u)
  /\ Buyer.phone b = formatPhone (getProfile w u)
  /\ Buyer.favorite_package b = getMostFrequent (Buyer.packages (Buyer.buyer b)).
Proof.
  unfold rank_buyers. intros Hb.
  apply list_elem_of_lookup in Hb as [i Hi]. rewrite list_lookup_imap in Hi.
  destruct (slice _ 0 limit !! i) as [s|]; [|done].
  simpl in Hi. by injection Hi as <-.
Qed.

Lemma rank_buyers_ranking w batches packages limit :
  ranking_of w (packageMap packages) batches (rank_buyers w batches packages limit).
Proof.
  set (pm := packageMap packages).
  destruct (userStats_spec pm batches []) as [[Hnd Hall] Hget]; [split; constructor|].
  pose proof (rank_buyers_users w batches packages limit) as Hmap. fold pm in Hmap.
  set (o := foldl (buyer_step pm) [] batches) in *.
  assert (map Buyer.user_id (map snd o) = map fst o) as Hids.
  { rewrite map_map. apply Forall_fmap_ext_1. exact Hall. }
  assert (forall s, s ∈ map Buyer.buyer (rank_buyers w batches packages limit) ->
                    (Buyer.user_id s, s) ∈ o) as Hin.
  { intros s Hs. rewrite Hmap in Hs.
    apply (fun H => elem_of_sublist _ _ _ H (slice_sublist _ _ _)) in Hs.
    apply elem_of_sort in Hs. rewrite (values_perm o) in Hs.
    apply list_elem_of_fmap in Hs as ([k s'] & -> & He).
    rewrite Forall_forall in Hall. by rewrite (Hall _ He). }
  split.
  - assert (map (fun b => Buyer.user_id (Buyer.buyer b)) (rank_buyers w batches packages limit)
            = map Buyer.user_id (map Buyer.buyer (rank_buyers w batches packages limit))) as ->
      by (by rewrite map_map).
    rewrite Hmap.
    apply (sublist_NoDup _ (map Buyer.user_id
                              (sort (by_key_desc Buyer.total_spent) (Dict.values o)))).
    + rewrite (sort_perm _ _), (values_perm o), Hids. exact Hnd.
    + apply (fmap_sublist Buyer.user_id), slice_sublist.
  - intros b Hb.
    destruct (rank_buyers_entry w batches packages limit b Hb) as (Hn & Hp & Hf).
    assert (Buyer.buyer b ∈ map Buyer.buyer (rank_buyers w batches packages limit)) as Hs
      by (by apply list_elem_of_fmap_2).
    apply Hin, (elem_of_get _ _ _ Hnd) in Hs. rewrite Hget in Hs.
    unfold summarises. cbn zeta.
    destruct (purchases_of (Buyer.user_id (Buyer.buyer b)) batches) as [|b0 mine] eqn:Hmine;
      [done|].
    simpl in Hs. injection Hs as Hs. split; [done|]. split; [by rewrite <- Hs|]. done.
Qed.

Lemma userStats_size pm batches :
  length (foldl (buyer_step pm) [] batches)
  = size (list_to_set (map CreditBatch.user_id batches) : gset string).
Proof.
  destruct (userStats_spec pm batches []) as [[Hnd _] Hget]; [split; constructor|].
  rewrite <- (length_map fst (foldl (buyer_step pm) [] batches)).
  rewrite <- (size_list_to_set (C := gset string)) by done.
  f_equal. apply set_eq. intros u. rewrite !elem_of_list_to_set. split.
  - intros Hu. apply list_elem_of_fmap in Hu as ([k s] & -> & He). simpl.
    apply (elem_of_get _ _ _ Hnd) in He. rewrite Hget in He.
    destruct (purchases_of k batches) as [|b0 mine] eqn:Hmine; [done|].
    assert (b0 ∈ purchases_of k batches) as Hb0 by (rewrite Hmine; left).
    apply list_elem_of_filter in Hb0 as [<- Hb0]. by apply list_elem_of_fmap_2.
  - intros Hu. apply list_elem_of_fmap in Hu as (b0 & -> & Hb0).
    assert (b0 ∈ purchases_of (CreditBatch.user_id b0) batches) as Hin
      by (by apply list_elem_of_filter).
    specialize (Hget (CreditBatch.user_id b0)).
    destruct (purchases_of (CreditBatch.user_id b0) batches) as [|b1 mine];
      [by apply elem_of_nil in Hin|].
    apply get_Some_elem_of in Hget.
    apply list_elem_of_fmap. eexists. split; [|exact Hget]. done.
Qed.

Lemma rank_buyers_best w batches packages limit :
  0 <= limit ->
  best_buyers (packageMap packages) batches limit (rank_buyers w batches packages limit).
Proof.
  intros Hlimit. set (pm := packageMap packages).
  destruct (userStats_spec pm batches []) as [[Hnd Hall] Hget]; [split; constructor|].
  pose proof (rank_buyers_users w batches packages limit) as Hmap. fold pm in Hmap.
  rewrite slice_prefix in Hmap by done.
  set (o := foldl (buyer_step pm) [] batches) in *.
  set (sorted := sort (by_key_desc Buyer.total_spent) (Dict.values o)) in *.
  split.
  - rewrite <- (length_map Buyer.buyer), Hmap, length_take. unfold sorted.
    rewrite sort_length, (Permutation_length (values_perm o)), length_map.
    unfold o. by rewrite userStats_size.
  - intros u b Hu Hout Hb.
    assert (exists s, Dict.get o u = Some s
                      /\ Buyer.total_spent s = sum_by (batch_price pm) (purchases_of u batches)
                      /\ Buyer.user_id s = u) as (s & Hs & Hspent & Hid).
    { rewrite Hget. apply list_elem_of_fmap in Hu as (b0 & -> & Hb0).
      assert (b0 ∈ purchases_of (CreditBatch.user_id b0) batches) as Hin
        by (by apply list_elem_of_filter).
      destruct (purchases_of (CreditBatch.user_id b0) batches) as [|b1 mine];
        [by apply elem_of_nil in Hin|].
      eexists. split; [done|]. simpl. split; [lia|done]. }
    rewrite <- Hspent.
    assert (s ∈ sorted) as Hsorted.
    { apply elem_of_sort. rewrite (values_perm o).
      apply list_elem_of_fmap. exists (u, s). split; [done|]. by apply get_Some_elem_of. }
    rewrite <- (take_drop (Z.to_nat limit) sorted) in Hsorted.
    apply elem_of_app in Hsorted as [Htake|Hdrop].
    + exfalso. apply Hout. rewrite <- Hmap in Htake.
      apply list_elem_of_fmap in Htake as (b' & -> & Hb').
      apply list_elem_of_fmap. by exists b'.
    + assert (Buyer.buyer b ∈ take (Z.to_nat limit) sorted) as Hbt
        by (rewrite <- Hmap; by apply list_elem_of_fmap_2).
      pose proof (sort_descending Buyer.total_spent (Dict.values o)) as Hsd.
      fold sorted in Hsd. rewrite <- (take_drop (Z.to_nat limit) sorted) in Hsd.
      exact (StronglySorted_app_1_elem_of _ _ _ _ _ Hsd Hbt Hdrop).
Qed.

(** Every entry of [getTopBuyers] and of [getTopBuyersByDateRange] sums up
    the batches of one user: the number of them, the sum of their package
    prices and of their credits and their package titles in the order read,
    with the display name and phone of that user and the most frequent of
    those titles; no user has two entries. *)
Theorem top_buyers_summarise_batches st w limit :
  (forall year r,
     getTopBuyers st w year limit = Return r ->
     ranking_of w (packageMap (from_packages st))
       (rows (from_credit_batches st (year_request year None))) r)
  /\ (forall s f r,
        getTopBuyersByDateRange st w s f limit = Return r ->
        ranking_of w (packageMap (from_packages st))
          (rows (from_credit_batches st (range_request s f None))) r).
Proof.
  split.
  - intros year r. unfold getTopBuyers. destruct (error _); [done|].
    intros [= <-]. apply rank_buyers_ranking.
  - intros s f r. unfold getTopBuyersByDateRange. destruct (error _); [done|].
    intros [= <-]. apply rank_buyers_ranking.
Qed.

Lemma top_buyers_summarise_batches_witness :
  exists r, getTopBuyers buyers_store initial_world 2026 3 = Return r
  /\ map (fun b => (Buyer.user_id (Buyer.buyer b), Buyer.total_purchases (Buyer.buyer b))) r
     = [("bea", 2); ("ana", 1); ("cora", 1)]
  /\ NoDup (map (fun b => Buyer.user_id (Buyer.buyer b)) r).
Proof.
  destruct (top_buyers_summarise_batches buyers_store initial_world 3) as [Hy _].
  destruct (getTopBuyers buyers_store initial_world 2026 3) as [e|r] eqn:E;
    [by vm_compute in E|].
  destruct (Hy 2026 r E) as [Hnd _].
  exists r. split; [done|]. split; [|exact Hnd].
  vm_compute in E. by injection E as <-.
Defined.

(** For a limit of 0 or more, [getTopBuyers] and [getTopBuyersByDateRange]
    return as many entries as the limit and the number of distinct buyers
    allow, and no buyer left out spent more than a buyer listed. *)
Theorem top_buyers_are_the_best st w limit :
  0 <= limit ->
  (forall year r,
     getTopBuyers st w year limit = Return r ->
     best_buyers (packageMap (from_packages st))
       (rows (from_credit_batches st (year_request year None))) limit r)
  /\ (forall s f r,
        getTopBuyersByDateRange st w s f limit = Return r ->
        best_buyers (packageMap (from_packages st))
          (rows (from_credit_batches st (range_request s f None))) limit r).
Proof.
  intros Hlimit. split.
  - intros year r. unfold getTopBuyers. destruct (error _); [done|].
    intros [= <-]. by apply rank_buyers_best.
  - intros s f r. unfold getTopBuyersByDateRange. destruct (error _); [done|].
    intros [= <-]. by apply rank_buyers_best.
Qed.

Lemma top_buyers_are_the_best_witness :
  exists r, getTopBuyers buyers_store initial_world 2026 3 = Return r
  /\ length r = 3%nat
  /\ best_buyers (packageMap (from_packages buyers_store))
       (rows (from_credit_batches buyers_store (year_request 2026 None))) 3 r.
Proof.
  destruct (top_buyers_are_the_best buyers_store initial_world 3 ltac:(lia)) as [Hy _].
  destruct (getTopBuyers buyers_store initial_world 2026 3) as [e|r] eqn:E;
    [by vm_compute in E|].
  pose proof (Hy 2026 r E) as Hbest.
  exists r. split; [done|]. split; [|exact Hbest].
  vm_compute in E. by injection E as <-.
Defined.

(** ** The most frequent title *)






(** ** Display names and the profile directory *)

Lemma fallback_name_nonspace userId : has_nonspace ("Usuario " +:+ substring0 8 userId) = true.
Proof. reflexivity. Qed.



Lemma profile_map_lookup l u : profile_map l !! u = last_profile u l.
Proof.
  unfold profile_map, last_profile.
  assert (forall m : gmap string Profile.t,
            foldl (fun m p => <[Profile.id p := p]> m) m l !! u
            = match last (filter (fun p => Profile.id p = u) l) with
              | Some p => Some p
              | None => m !! u
              end) as H.
  { induction l as [|p l IH]; intros m; simpl; [done|].
    rewrite IH, filter_cons. destruct (decide (Profile.id p = u)) as [<-|Hne].
    - rewrite last_cons. destruct (last _); [done|]. by rewrite lookup_insert_eq.
    - destruct (last _); [done|]. by rewrite lookup_insert_ne. }
  rewrite H, lookup_empty. by destruct (last _).
Qed.

(** After [loadProfiles] has read at least one profile without error,
    [getProfile] finds for an id the last row read with that id, and nothing
    for an id no row has. *)
Theorem loaded_profiles_are_found st w l userId :
  profilesCache w = None ->
  error (from_profiles st) = None ->
  data (from_profiles st) = Some l ->
  l <> [] ->
  getProfile (snd (loadProfiles st w)) userId = last_profile userId l
  /\ (userId ∉ map Profile.id l -> getProfile (snd (loadProfiles st w)) userId = None)
  /\ forall p, getProfile (snd (loadProfiles st w)) userId = Some p ->
               p ∈ l /\ Profile.id p = userId.
Proof.
  intros Hc He Hd Hl.
  assert (getProfile (snd (loadProfiles st w)) userId = last_profile userId l) as Hget.
  { unfold getProfile, loadProfiles. rewrite Hc, He, Hd.
    destruct l as [|p l']; [done|]. simpl. apply profile_map_lookup. }
  assert (forall p, last_profile userId l = Some p -> p ∈ l /\ Profile.id p = userId) as Hlast.
  { intros p Hp. unfold last_profile in Hp.
    apply last_Some in Hp as [l' Hp].
    assert (p ∈ filter (fun p => Profile.id p = userId) l) as Hin
      by (rewrite Hp; apply elem_of_app; right; left).
    apply list_elem_of_filter in Hin as [Hid Hin]. done. }
  split; [done|]. split.
  - intros Hnot. rewrite Hget. destruct (last_profile userId l) as [p|] eqn:Hp; [|done].
    destruct (Hlast p eq_refl) as [Hin <-]. exfalso. apply Hnot. by apply list_elem_of_fmap_2.
  - intros p Hp. apply Hlast. by rewrite <- Hget.
Qed.

Lemma loaded_profiles_are_found_witness :
  let rows := [Profile.mk "u1" (Some "Ana") None; Profile.mk "u2" (Some "Bea") None;
               Profile.mk "u1" (Some "Ana Maria") (Some "555")] in
  let st := store_of (ok rows) [] [] [] [] in
  getProfile (snd (loadProfiles st initial_world)) "u1"
  = Some (Profile.mk "u1" (Some "Ana Maria") (Some "555")).
Proof.
  intros rows st.
  destruct (loaded_profiles_are_found st initial_world rows "u1" eq_refl eq_refl eq_refl
              ltac:(done)) as [H _].
  rewrite H. reflexivity.
Defined.

(** ** Retention metrics *)

Lemma foldl_sum {A} (f : A -> Z) (l : list A) (s : Z) :
  foldl (fun sum x => sum + f x) s l = s + sum_by f l.
Proof.
  revert s. induction l as [|x l IH]; intros s; simpl; [lia|]. rewrite IH. lia.
Qed.

(** [total_registered_users] is the number of profiles of the directory
    when the directory holds at least one, and [total_unique_users]
    otherwise: before any load, and after a load that failed or found no
    row. *)
Theorem registered_users_fall_back st w now r :
  getRetentionMetrics st w now = Return r ->
  (forall cache, profilesCache w = Some cache -> size cache <> 0%nat ->
                 Retention.total_registered_users r = Z.of_nat (size cache))
  /\ (profilesCache w = None \/ profilesCache w = Some ∅ ->
      Retention.total_registered_users r = Retention.total_unique_users r)
  /\ (forall first w0,
        w = snd (loadProfiles first w0) -> profilesCache w0 = None ->
        nothing_loaded (from_profiles first) ->
        Retention.total_registered_users r = Retention.total_unique_users r).
Proof.
  intros Hr. unfold getRetentionMetrics in Hr. injection Hr as <-.
  cbn [Retention.total_registered_users Retention.total_unique_users].
  assert (profilesCache w = None \/ profilesCache w = Some ∅ ->
          num_or match profilesCache w with
                 | Some cache => Some (Z.of_nat (size cache))
                 | None => None
                 end (JsSet.size (JsSet.of_list
                        (map Booking.user_id (rows (from_bookings st all_rows)))))
          = JsSet.size (JsSet.of_list
                          (map Booking.user_id (rows (from_bookings st all_rows))))) as Hempty.
  { intros [-> | ->]; [done|]. by rewrite map_size_empty. }
  split; [|split; [exact Hempty|]].
  - intros cache -> Hsize. simpl. destruct (Z.eqb_spec (Z.of_nat (size cache)) 0); [lia|done].
  - intros first w0 -> Hc Hnothing. apply Hempty. right.
    rewrite loadProfiles_sets_cache. f_equal.
    unfold loadProfiles. rewrite Hc.
    destruct (error (from_profiles first)) eqn:He; [done|].
    destruct Hnothing as [H|[H|H]]; [done| |]; by rewrite H.
Qed.

Lemma registered_users_fall_back_witness :
  exists r,
    getRetentionMetrics half_converted (snd (loadProfiles store_down initial_world)) 0
      = Return r
    /\ Retention.total_unique_users r = 3
    /\ Retention.total_registered_users r = Retention.total_unique_users r.
Proof.
  eexists. split; [reflexivity|]. split; [reflexivity|].
  destruct (registered_users_fall_back half_converted
              (snd (loadProfiles store_down initial_world)) 0 _ eq_refl) as (_ & _ & H).
  apply (H store_down initial_world eq_refl eq_refl). left. discriminate.
Defined.

(** The purchaser counts of the retention report: [total_buyers_ever] is
    the number of distinct purchasers of the credit batches read,
    [buyers_last_30_days] counts those with a batch created after
    [now - 30 days] and never exceeds it; [users_with_credits] is the
    number of distinct users of the batches read with credits left and
    [total_credits_pending] the sum of their [credits_remaining]. *)
Theorem retention_purchaser_counts st w now r :
  getRetentionMetrics st w now = Return r ->
  let batches := rows (from_credit_batches st all_rows) in
  let recent := filter (fun b => Dayjs.subtract_days now 30 < CreditBatch.created_at b) batches in
  let active := rows (from_credit_batches st active_batches_request) in
  Retention.total_buyers_ever r
  = Z.of_nat (size (list_to_set (map CreditBatch.user_id batches) : gset string))
  /\ Retention.buyers_last_30_days r
     = Z.of_nat (size (list_to_set (map CreditBatch.user_id recent) : gset string))
  /\ 0 <= Retention.buyers_last_30_days r <= Retention.total_buyers_ever r
  /\ Retention.users_with_credits r
     = Z.of_nat (size (list_to_set (map CreditBatch.user_id active) : gset string))
  /\ Retention.total_credits_pending r = sum_by CreditBatch.credits_remaining active.
Proof.
  intros Hr batches recent active. unfold getRetentionMetrics in Hr. injection Hr as <-.
  cbn [Retention.total_buyers_ever Retention.buyers_last_30_days Retention.users_with_credits
       Retention.total_credits_pending].
  fold batches active.
  assert (filter (fun b => Dayjs.isAfter (CreditBatch.created_at b)
                             (Dayjs.subtract_days now 30) = true) batches = recent) as ->.
  { apply list_filter_iff. intros b. unfold Dayjs.isAfter. apply Z.ltb_lt. }
  rewrite !size_of_list, foldl_sum.
  split; [done|]. split; [done|]. split; [|split; [done|lia]].
  split; [lia|]. apply inj_le, subseteq_size.
  intros u. rewrite !elem_of_list_to_set, !list_elem_of_fmap.
  intros (b & -> & Hb). exists b. split; [done|].
  by apply list_elem_of_filter in Hb as [_ Hb].
Qed.

Lemma retention_purchaser_counts_witness :
  exists r, getRetentionMetrics more_buyers_than_users initial_world 1772366400000 = Return r
  /\ Retention.total_buyers_ever r = 3
  /\ Retention.total_credits_pending r = 15
  /\ Retention.buyers_last_30_days r <= Retention.total_buyers_ever r.
Proof.
  eexists. split; [reflexivity|]. split; [reflexivity|]. split; [reflexivity|].
  apply (retention_purchaser_counts more_buyers_than_users initial_world 1772366400000 _
           eq_refl).
Defined.

(** ** Attendance statistics *)

Lemma coach_step_sums o b :
  sum_by Attendance.classes (map snd (coach_step o b))
  = sum_by Attendance.classes (map snd o) + 1
  /\ sum_by Attendance.coach_attendees (map snd (coach_step o b))
     = sum_by Attendance.coach_attendees (map snd o) + num_or (Booking.total_attendees b) 1.
Proof.
  unfold coach_step. destruct (Dict.get o _) as [c|] eqn:Hget.
  - rewrite (sum_set_present Attendance.classes _ _ _ c Hget),
      (sum_set_present Attendance.coach_attendees _ _ _ c Hget). simpl. lia.
  - rewrite (sum_set_absent Attendance.classes _ _ _ Hget),
      (sum_set_absent Attendance.coach_attendees _ _ _ Hget). simpl. lia.
Qed.

Lemma time_step_sums o b :
  sum_by Attendance.count (map snd (time_step o b))
  = sum_by Attendance.count (map snd o) + 1
  /\ sum_by Attendance.attendees (map snd (time_step o b))
     = sum_by Attendance.attendees (map snd o) + num_or (Booking.total_attendees b) 1.
Proof.
  unfold time_step. destruct (Dict.get o _) as [c|] eqn:Hget.
  - rewrite (sum_set_present Attendance.count _ _ _ c Hget),
      (sum_set_present Attendance.attendees _ _ _ c Hget). simpl. lia.
  - rewrite (sum_set_absent Attendance.count _ _ _ Hget),
      (sum_set_absent Attendance.attendees _ _ _ Hget). simpl. lia.
Qed.

Lemma attendance_folds l co ti :
  sum_by Attendance.classes (map snd (foldl coach_step co l))
  = sum_by Attendance.classes (map snd co) + Z.of_nat (length l)
  /\ sum_by Attendance.coach_attendees (map snd (foldl coach_step co l))
     = sum_by Attendance.coach_attendees (map snd co)
       + sum_by (fun b => num_or (Booking.total_attendees b) 1) l
  /\ sum_by Attendance.count (map snd (foldl time_step ti l))
     = sum_by Attendance.count (map snd ti) + Z.of_nat (length l)
  /\ sum_by Attendance.attendees (map snd (foldl time_step ti l))
     = sum_by Attendance.attendees (map snd ti)
       + sum_by (fun b => num_or (Booking.total_attendees b) 1) l.
Proof.
  revert co ti. induction l as [|b l IH]; intros co ti.
  - simpl. lia.
  - destruct (IH (coach_step co b) (time_step ti b)) as (I1 & I2 & I3 & I4).
    destruct (coach_step_sums co b) as [C1 C2]. destruct (time_step_sums ti b) as [T1 T2].
    rewrite C1, C2 in *. rewrite T1, T2 in *.
    cbn [foldl length]. rewrite sum_by_cons. repeat split; lia.
Qed.

(** In the attendance statistics every booking read is counted once per
    coach and once per time: the classes of [by_coach] and the counts of
    [by_time] both sum to [total_bookings], the number of bookings read, and
    the attendees of both sum to [total_attendees]; [by_coach] is ordered by
    attendees and [by_time] by count, largest first. *)
Theorem attendance_adds_up st r :
  getAttendanceStats st = Return r ->
  Attendance.total_bookings r
  = Z.of_nat (length (rows (from_bookings st active_bookings_request)))
  /\ sum_by Attendance.classes (Attendance.by_coach r) = Attendance.total_bookings r
  /\ sum_by Attendance.count (Attendance.by_time r) = Attendance.total_bookings r
  /\ sum_by Attendance.coach_attendees (Attendance.by_coach r) = Attendance.total_attendees r
  /\ sum_by Attendance.attendees (Attendance.by_time r) = Attendance.total_attendees r
  /\ (forall i a b, Attendance.by_coach r !! i = Some a -> Attendance.by_coach r !! S i = Some b ->
                    Attendance.coach_attendees b <= Attendance.coach_attendees a)
  /\ (forall i a b, Attendance.by_time r !! i = Some a -> Attendance.by_time r !! S i = Some b ->
                    Attendance.count b <= Attendance.count a).
Proof.
  unfold getAttendanceStats. intros [= <-].
  cbn [Attendance.total_bookings Attendance.by_coach Attendance.by_time
       Attendance.total_attendees].
  destruct (attendance_folds (rows (from_bookings st active_bookings_request)) [] [])
    as (I1 & I2 & I3 & I4).
  cbn [map sum_by foldr] in I1, I2, I3, I4.
  rewrite !(sum_by_perm _ _ _ (sort_perm _ _)), !(sum_by_perm _ _ _ (values_perm _)).
  unfold sum_attendees. rewrite foldl_sum.
  split; [done|]. split; [lia|]. split; [lia|]. split; [lia|]. split; [lia|]. split.
  - intros i a b. apply (descending_adjacent Attendance.coach_attendees).
    apply (sort_descending Attendance.coach_attendees).
  - intros i a b. apply (descending_adjacent Attendance.count).
    apply (sort_descending Attendance.count).
Qed.

Lemma attendance_adds_up_witness :
  let st := store_of (ok [])
              [Booking.mk "u1" (Some 1772366400000) "09:00" "active" None (Some "Lu") 0;
               Booking.mk "u2" (Some 1772366400000) "10:00" "active" (Some 4) (Some "Lu") 0;
               Booking.mk "u3" (Some 1772366400000) "09:00" "active" (Some 3) None 0] [] [] [] in
  exists r, getAttendanceStats st = Return r
  /\ map Attendance.classes (Attendance.by_coach r) = [2; 1]
  /\ sum_by Attendance.classes (Attendance.by_coach r) = Attendance.total_bookings r.
Proof.
  intros st. eexists. split; [reflexivity|]. split; [reflexivity|].
  apply (attendance_adds_up st _ eq_refl).
Defined.

(** ** Credits comparison *)

Lemma round_percentage part total :
  0 <= part <= total -> 0 < total ->
  0 <= Math_round (inject_Z part / inject_Z total * 100) <= 100.
Proof.
  intros [Hp Hle] Ht. unfold Math_round. split.
  - change 0 with (Qfloor 0). apply Qfloor_resp_le.
    apply (Qle_trans _ (0 + (1 # 2))); [done|].
    apply Qplus_le_l. by apply ratio_nonneg.
  - change 100 with (Qfloor (100 + (1 # 2))). apply Qfloor_resp_le, Qplus_le_l.
    by apply ratio_at_most_100.
Qed.

(** In the credits comparison the recurring clients are at most the unique
    buyers of either period and [recurring_percentage] lies between 0 and
    100; comparing a period with itself, every buyer is recurring and the
    percentage is 100 as soon as there is a buyer. *)
Theorem recurring_clients_bounded st p1s p1e p2s p2e r :
  getCreditsComparison st p1s p1e p2s p2e = Return r ->
  0 <= Credits.recurring_clients r <= Credits.unique_buyers (Credits.period1 r)
  /\ Credits.recurring_clients r <= Credits.unique_buyers (Credits.period2 r)
  /\ 0 <= Credits.recurring_percentage r <= 100
  /\ (p1s = p2s -> p1e = p2e ->
      Credits.recurring_clients r = Credits.unique_buyers (Credits.period1 r)
      /\ (0 < Credits.unique_buyers (Credits.period1 r) ->
          Credits.recurring_percentage r = 100)).
Proof.
  intros Hr. unfold getCreditsComparison in Hr. injection Hr as <-.
  cbn [Credits.recurring_clients Credits.recurring_percentage Credits.unique_buyers
       Credits.period1 Credits.period2 period_stats].
  set (l1 := map CreditBatch.user_id (rows (from_credit_batches st (period_batches p1s p1e)))).
  set (l2 := map CreditBatch.user_id (rows (from_credit_batches st (period_batches p2s p2e)))).
  rewrite recurring_count, !size_of_list.
  assert (size ((list_to_set l1 : gset string) ∩ list_to_set l2)
          <= size (list_to_set l1 : gset string))%nat as H1
    by apply subseteq_size, intersection_subseteq_l.
  assert (size ((list_to_set l1 : gset string) ∩ list_to_set l2)
          <= size (list_to_set l2 : gset string))%nat as H2
    by apply subseteq_size, intersection_subseteq_r.
  split; [lia|]. split; [lia|]. split.
  - destruct (Z.ltb_spec 0 (Z.of_nat (size (list_to_set l1 : gset string)))); [|lia].
    apply round_percentage; lia.
  - intros -> ->. subst l1 l2.
    assert (forall s : gset string, s ∩ s = s) as ->.
    { intros s. apply set_eq. intros x. rewrite elem_of_intersection. tauto. }
    split; [done|]. intros Hpos. rewrite (proj2 (Z.ltb_lt 0 _)) by done.
    apply Z.le_antisymm; [apply round_percentage; lia|].
    unfold Math_round. change 100 with (Qfloor (1 * 100 + (1 # 2))) at 1.
    apply Qfloor_resp_le, Qplus_le_l, Qmult_le_compat_r; [|done].
    apply Qle_shift_div_l; [by rewrite <- (Zlt_Qlt 0)|].
    rewrite Qmult_1_l. apply Qle_refl.
Qed.

Lemma recurring_clients_bounded_witness :
  exists r,
    getCreditsComparison two_periods "2026-01-01" "2026-01-31" "2026-02-01" "2026-02-28"
      = Return r
    /\ Credits.unique_buyers (Credits.period1 r) = 3
    /\ 0 <= Credits.recurring_percentage r <= 100.
Proof.
  eexists. split; [reflexivity|]. split; [reflexivity|].
  apply (recurring_clients_bounded two_periods
           "2026-01-01" "2026-01-31" "2026-02-01" "2026-02-28" _ eq_refl).
Defined.

(** ** Popular classes *)

Lemma template_steps sessions o :
  NoDup (map fst o) /\ Forall fresh_entry o ->
  (NoDup (map fst (foldl template_step o sessions))
   /\ Forall fresh_entry (foldl template_step o sessions))
  /\ forall k, is_Some (Dict.get (foldl template_step o sessions) k)
               <-> is_Some (Dict.get o k) \/ k ∈ map Session.day_name sessions.
Proof.
  revert o. induction sessions as [|s l IH]; intros o [Hnd Hok]; simpl.
  - split; [done|]. intros k. rewrite elem_of_nil. tauto.
  - destruct (IH (template_step o s)) as [Hinv Hkeys].
    { unfold template_step. split; [by apply keys_set|]. by apply Forall_set. }
    split; [done|]. intros k. rewrite Hkeys. unfold template_step.
    destruct (decide (Session.day_name s = k)) as [<-|Hne].
    + rewrite get_set_eq. split; [intros _; right; left|intros _; left; by eexists].
    + rewrite get_set_ne by done. rewrite elem_of_cons. split; [tauto|].
      intros [H|[H|H]]; [tauto|congruence|tauto].
Qed.

Lemma popular_step_spec o b :
  NoDup (map fst o) /\ Forall day_stats_ok o ->
  (NoDup (map fst (popular_step o b)) /\ Forall day_stats_ok (popular_step o b))
  /\ (forall k, is_Some (Dict.get (popular_step o b) k) <-> is_Some (Dict.get o k))
  /\ sum_by Popular.count (map snd (popular_step o b))
     = sum_by Popular.count (map snd o)
       + (if decide (is_Some (Dict.get o (booking_day b))) then 1 else 0)
  /\ sum_by Popular.attendees (map snd (popular_step o b))
     = sum_by Popular.attendees (map snd o)
       + (if decide (is_Some (Dict.get o (booking_day b)))
          then num_or (Booking.total_attendees b) 1 else 0).
Proof.
  intros [Hnd Hok]. unfold popular_step.
  destruct (Dict.get o (booking_day b)) as [d|] eqn:Hget.
  - rewrite !decide_True by (by eexists).
    rewrite (sum_set_present Popular.count _ _ _ d Hget),
      (sum_set_present Popular.attendees _ _ _ d Hget). simpl.
    split; [|split; [|split; lia]].
    + split; [by apply keys_set|]. apply Forall_set; [done|].
      apply get_Some_elem_of in Hget. rewrite Forall_forall in Hok.
      destruct (Hok _ Hget) as [Hd Hc]. split; simpl in *; [done|lia].
    + intros k. destruct (decide (booking_day b = k)) as [<-|Hne].
      * rewrite get_set_eq, Hget. split; intros _; by eexists.
      * by rewrite get_set_ne.
  - assert (~ is_Some (None : option Popular.t)) as Hn by (intros [? ?]; done).
    rewrite !decide_False by exact Hn.
    split; [done|]. split; [done|]. lia.
Qed.

Lemma popular_steps l o :
  NoDup (map fst o) /\ Forall day_stats_ok o ->
  (NoDup (map fst (foldl popular_step o l)) /\ Forall day_stats_ok (foldl popular_step o l))
  /\ sum_by Popular.count (map snd (foldl popular_step o l))
     = sum_by Popular.count (map snd o)
       + Z.of_nat (length (filter (fun b => is_Some (Dict.get o (booking_day b))) l))
  /\ sum_by Popular.attendees (map snd (foldl popular_step o l))
     = sum_by Popular.attendees (map snd o)
       + sum_by (fun b => num_or (Booking.total_attendees b) 1)
           (filter (fun b => is_Some (Dict.get o (booking_day b))) l).
Proof.
  revert o. induction l as [|b l IH]; intros o Ho.
  - simpl. split; [done|]. lia.
  - destruct (popular_step_spec o b Ho) as (Hinv & Hkeys & Hc & Ha).
    destruct (IH _ Hinv) as (Hinv' & Hc' & Ha').
    cbn [foldl]. split; [done|]. rewrite Hc', Ha', Hc, Ha.
    rewrite (list_filter_iff (fun b0 => is_Some (Dict.get (popular_step o b) (booking_day b0)))
               (fun b0 => is_Some (Dict.get o (booking_day b0))) l) by (intros ?; apply Hkeys).
    rewrite filter_cons.
    destruct (decide (is_Some (Dict.get o (booking_day b)))); cbn [length];
      rewrite ?sum_by_cons; lia.
Qed.

Lemma sum_by_filter_positive {A} (f : A -> Z) (l : list A) :
  Forall (fun x => 0 <= f x) l -> sum_by f (filter (fun x => 0 < f x) l) = sum_by f l.
Proof.
  induction 1 as [|x l Hx Hl IH]; [done|].
  rewrite filter_cons. destruct (decide (0 < f x)); rewrite ?sum_by_cons, IH; lia.
Qed.

(** [getPopularClasses] always returns, whatever the two reads answer;
    every class it returns was booked at least once, the classes are
    ordered by attendees, most first, and no weekday has two of them.
    Their counts sum to the number of bookings read whose weekday has a
    session template; the other bookings are left out. *)
Theorem popular_classes_count_template_days st :
  exists r,
    getPopularClasses st = Return r
    /\ classes_ranked r
    /\ sum_by Popular.count r
       = Z.of_nat (length (booked_on_template (rows (from_sessions st))
                             (rows (from_bookings st active_bookings_request)))).
Proof.
  destruct (getPopularClasses st) as [e|r] eqn:E; [discriminate E|].
  exists r. split; [done|]. revert E.
  unfold getPopularClasses. intros [= <-].
  destruct (template_steps (rows (from_sessions st)) []) as [[Hnd0 Hfresh] Hkeys];
    [split; constructor|].
  set (o0 := foldl template_step [] (rows (from_sessions st))) in *.
  assert (Forall day_stats_ok o0) as Hok0.
  { eapply Forall_impl; [exact Hfresh|]. intros e (Hd & Hc & _). split; [done|lia]. }
  assert (sum_by Popular.count (map snd o0) = 0) as Hsum0.
  { clear -Hfresh. induction Hfresh as [|e l (_ & Hc & _) _ IH]; [done|].
    simpl. rewrite Hc. simpl in IH. lia. }
  destruct (popular_steps (rows (from_bookings st active_bookings_request)) o0
              (conj Hnd0 Hok0)) as ([Hnd Hok] & Hc & _).
  set (o := foldl popular_step o0 (rows (from_bookings st active_bookings_request))) in *.
  split; [split; [|split]|].
  - intros d Hd. apply elem_of_sort, list_elem_of_filter in Hd as [Hd _]. lia.
  - intros i a b. apply (descending_adjacent Popular.attendees).
    apply (sort_descending Popular.attendees).
  - rewrite (sort_perm _ _).
    apply (sublist_NoDup _ (map Popular.day (Dict.values o)));
      [|apply (fmap_sublist Popular.day), sublist_filter].
    rewrite (values_perm o), map_map.
    assert (map (fun x => Popular.day (snd x)) o = map fst o) as ->; [|done].
    apply Forall_fmap_ext_1. eapply Forall_impl; [exact Hok|]. by intros e [Hd _].
  - rewrite (sum_by_perm _ _ _ (sort_perm _ _)).
    rewrite sum_by_filter_positive.
    + rewrite (sum_by_perm _ _ _ (values_perm o)), Hc, Hsum0, Z.add_0_l.
      do 2 f_equal.
      unfold booked_on_template. apply list_filter_iff. intros b.
      rewrite Hkeys. simpl. split; [intros [[? ?]|?]; done|by right].
    + rewrite (values_perm o), Forall_fmap. eapply Forall_impl; [exact Hok|].
      by intros e [_ Hc'].
Qed.

(** A template for Monday only, two bookings on Monday 2026-02-16 and one
    on Tuesday 2026-02-17: the Tuesday booking is left out. *)
Example popular_classes_monday_only :
  getPopularClasses
    (store_of (ok [])
       [Booking.mk "u1" (Some 1771200000000) "09:00" "active" (Some 2) None 0;
        Booking.mk "u2" (Some 1771286400000) "09:00" "active" (Some 5) None 0;
        Booking.mk "u3" (Some 1771200000000) "18:00" "active" None None 0]
       [] [] [Session.mk "LUNES" (Some "Fuerza") None (Some 14)])
  = Return [Popular.mk (Some "Fuerza") None "LUNES" 2 3].
Proof. reflexivity. Qed.

(** ** Layout of the weekly schedule *)






(** ** Every booking of a weekday is counted in one slot *)

Section Grouping.
Context {K : Type} `{EqDecision K} {V X : Type}.
Context (key : X -> K) (f : X -> Z) (val : V -> Z) (step : Dict.t K V -> X -> Dict.t K V).
Hypothesis step_spec :
  forall o x, exists v, step o x = Dict.set o (key x) v
                        /\ val v = default 0 (val <$> Dict.get o (key x)) + f x.
Context (Q : K -> Prop) `{!forall k, Decision (Q k)}.

Lemma grouped_sum_set (o : Dict.t K V) k v :
  grouped_sum val Q (Dict.set o k v)
  = grouped_sum val Q o
    + (if decide (Q k) then val v - default 0 (val <$> Dict.get o k) else 0).
Proof.
  unfold grouped_sum. destruct (Dict.get o k) as [v0|] eqn:Hget.
  - destruct (set_present o k v v0 Hget) as (o1 & o2 & -> & ->).
    rewrite !filter_app, !filter_cons. simpl.
    destruct (decide (Q k)); rewrite !sum_by_app, ?sum_by_cons; simpl; lia.
  - rewrite keys_set_absent by done. rewrite filter_app, filter_cons, filter_nil. simpl.
    destruct (decide (Q k)); rewrite sum_by_app; simpl; lia.
Qed.

Lemma grouped_sum_foldl l (o : Dict.t K V) :
  grouped_sum val Q (foldl step o l)
  = grouped_sum val Q o + sum_by f (filter (fun x => Q (key x)) l).
Proof.
  revert o. induction l as [|x l IH]; intros o; simpl; [lia|].
  rewrite IH. destruct (step_spec o x) as (v & -> & Hv).
  rewrite grouped_sum_set, filter_cons.
  destruct (decide (Q (key x))); rewrite ?sum_by_cons; lia.
Qed.
End Grouping.

Lemma class_step_spec o b :
  exists v, class_step o b = Dict.set o (class_key b) v
            /\ Schedule.occ_attendees v
               = default 0 (Schedule.occ_attendees <$> Dict.get o (class_key b))
                 + attendees_of b.
Proof.
  unfold class_step. fold (class_key b) (attendees_of b).
  eexists. split; [reflexivity|]. simpl.
  by destruct (Dict.get o (class_key b)).
Qed.

Lemma slot_step_spec sm o cls :
  exists v, slot_step sm o cls = Dict.set o (slot_key cls) v
            /\ Schedule.total_attendees v
               = default 0 (Schedule.total_attendees <$> Dict.get o (slot_key cls))
                 + Schedule.occ_attendees cls.
Proof.
  unfold slot_step. fold (slot_key cls).
  eexists. split; [reflexivity|]. simpl.
  by destruct (Dict.get o (slot_key cls)).
Qed.

Lemma class_steps_dates l o :
  Forall (fun e => Schedule.date (snd e) = fst (fst e) /\ Schedule.occ_time (snd e) = snd (fst e)) o ->
  Forall (fun e => Schedule.date (snd e) = fst (fst e) /\ Schedule.occ_time (snd e) = snd (fst e))
         (foldl class_step o l).
Proof.
  revert o. induction l as [|b l IH]; intros o Ho; simpl; [done|].
  apply IH. unfold class_step. apply Forall_set; [done|]. simpl.
  destruct (Dict.get o _) as [c|] eqn:Hget; [|done].
  apply get_Some_elem_of in Hget. rewrite Forall_forall in Ho. by apply (Ho _ Hget).
Qed.

Lemma sum_by_filter_map {A B} (f : B -> Z) (g : A -> B) (P : B -> Prop)
    `{!forall y, Decision (P y)} (l : list A) :
  sum_by f (filter P (map g l)) = sum_by (fun x => f (g x)) (filter (fun x => P (g x)) l).
Proof.
  induction l as [|x l IH]; [done|]. cbn [map]. rewrite !filter_cons.
  destruct (decide (P (g x))); rewrite ?sum_by_cons, IH; done.
Qed.

Lemma sum_by_ext_in {A} (f g : A -> Z) (P Q : A -> Prop) `{!forall x, Decision (P x)}
    `{!forall x, Decision (Q x)} (l : list A) :
  Forall (fun x => f x = g x /\ (P x <-> Q x)) l ->
  sum_by f (filter P l) = sum_by g (filter Q l).
Proof.
  induction 1 as [|x l [Hf Hpq] _ IH]; [done|]. rewrite !filter_cons.
  destruct (decide (P x)) as [HP|HP].
  - rewrite decide_True by tauto. rewrite !sum_by_cons. lia.
  - rewrite decide_False by tauto. done.
Qed.

(** The slots of a weekday share out the bookings read for that weekday:
    the [total_attendees] of the slots of the day sum to the attendees of
    the bookings whose [session_date] falls on that weekday, a booking
    without a number of attendees counting 1.  So every such booking is
    counted in exactly one slot, and the bookings of a Sunday in none. *)
Theorem weekday_slots_count_every_booking st now schedule day slots :
  getWeeklySchedule st now = Return schedule ->
  (day, slots) ∈ schedule ->
  sum_by Schedule.total_attendees slots
  = sum_by attendees_of
      (filter (fun b => day_name_of (Booking.session_date b) = Some day)
              (rows (from_bookings st (weekly_request now)))).
Proof.
  intros Hret Hday. unfold getWeeklySchedule in Hret.
  destruct (error (from_bookings st (weekly_request now))).
  { injection Hret as <-. by apply elem_of_nil in Hday. }
  injection Hret as <-.
  assert (slots = sort (fun a b => localeCompare (Schedule.time a) (Schedule.time b))
                    (filter (fun s => Schedule.day s = Some day)
                       (scheduleStats (rows (from_bookings st (weekly_request now)))
                          (from_sessions st)))) as ->.
  { repeat (apply elem_of_cons in Hday as [Hday|Hday]; [by injection Hday as -> ->|]).
    by apply elem_of_nil in Hday. }
  clear Hday. rewrite (sum_by_perm _ _ _ (sort_perm _ _)). unfold scheduleStats.
  set (bookings := rows (from_bookings st (weekly_request now))).
  set (classes := foldl class_step [] bookings).
  set (sm := sessionMap (from_sessions st)).
  destruct (slots_fold sm (Dict.map_values classes) [] (Forall_nil_2 _) (NoDup_nil_2))
    as (Hok & _ & _).
  set (o := foldl (slot_step sm) [] (Dict.map_values classes)) in *.
  unfold Dict.map_values at 1. rewrite map_map, sum_by_filter_map.
  transitivity (grouped_sum Schedule.total_attendees (fun k => fst k = Some day) o).
  { unfold grouped_sum. apply sum_by_ext_in.
    eapply Forall_impl; [exact Hok|]. intros [[d t] s] (Hd & _). simpl in *.
    destruct (average_fields s) as (-> & _ & _ & _ & ->). by rewrite Hd. }
  unfold o. rewrite (grouped_sum_foldl slot_key Schedule.occ_attendees
                       Schedule.total_attendees (slot_step sm) (slot_step_spec sm)).
  unfold grouped_sum at 1. simpl. unfold Dict.map_values. rewrite sum_by_filter_map.
  transitivity (grouped_sum Schedule.occ_attendees
                  (fun k : option Z * string => day_name_of (fst k) = Some day) classes).
  { unfold grouped_sum. apply sum_by_ext_in.
    pose proof (class_steps_dates bookings [] (Forall_nil_2 _)) as Hdates.
    fold classes in Hdates. eapply Forall_impl; [exact Hdates|].
    intros [[d t] c] [Hd Ht]. simpl in *. unfold slot_key. simpl. by rewrite Hd. }
  unfold classes. rewrite (grouped_sum_foldl class_key attendees_of
                             Schedule.occ_attendees class_step class_step_spec).
  unfold grouped_sum at 1. simpl. done.
Qed.

(** Two bookings on Monday 2026-02-16, one on Monday 2026-02-23 and one on
    Sunday 2026-02-22. *)
Lemma weekday_slots_count_every_booking_witness :
  let st := store_of (ok [])
              [Booking.mk "u1" (Some 1771200000000) "09:00:00" "active" (Some 5) None 0;
               Booking.mk "u2" (Some 1771200000000) "18:00:00" "active" None None 0;
               Booking.mk "u3" (Some 1771804800000) "09:00:00" "active" (Some 2) None 0;
               Booking.mk "u4" (Some 1771718400000) "09:00:00" "active" (Some 9) None 0]
              [] [] [] in
  exists schedule slots,
    getWeeklySchedule st 1772366400000 = Return schedule
    /\ Dict.get schedule "LUNES" = Some slots
    /\ map Schedule.total_attendees slots = [7; 1]
    /\ sum_by Schedule.total_attendees slots = 8.
Proof.
  intros st. eexists. eexists. split; [reflexivity|]. split; [reflexivity|].
  split; [reflexivity|].
  rewrite (weekday_slots_count_every_booking st 1772366400000 _ "LUNES" _ eq_refl);
    [reflexivity|left].
Defined.
